(** * Sultan Platform: profile bootstrap and live mirror

    A shallow embedding of [src/App.tsx] (the application shell: auth
    observer, snapshot listener, XP / points / ghost-mode mutations,
    logout) and of [src/AuthGate.tsx] (the three sign-in handlers that
    provision a profile document), followed by the properties the
    specification states about them.

    Conventions of the embedding.
    - A TypeScript [number] holding points, xp, level, a Telegram id or a
      timestamp is an integer [Z]: the profile fields are integers and the
      handlers only add, subtract, multiply by 1000 and compare them.
      The program computes on doubles, which agree with [Z] as long as
      the operands and the result are safe integers ([safeInteger], at
      most 2^53 - 1 in magnitude); beyond that a double sum rounds and a
      number prints in another form.  The theorems whose point is the
      value of a sum or the digits of a printed number are therefore
      stated for safe integers.
    - The Firestore collection ["users"] is a finite map from document id
      to [User]; [updateDoc] merges the listed fields into an existing
      document and rejects when the document is absent; [setDoc] replaces
      the document.  Transport failures of the store are not modelled.
    - What the authentication provider answers is an input of the handler
      that awaits it ([AuthReply]); [Date.now()] is an input as well.
    - An [async] function is a state transformer that either returns or
      rejects ([Async]); [try / catch / finally] is a combinator on it.
    - A snapshot listener fires in a step of its own ([deliver]), after
      the write that causes it: handlers never touch the mirror through
      the store. *)

From Stdlib Require Import ZArith Lia.
From stdpp Require Import base option list gmap strings pretty.

Local Open Scope Z_scope.

(* ------------------------------------------------------------------ *)
(** ** Asynchronous computations over a state *)

(** A rejected promise carries an error object; the handlers only ever
    read its [code]. *)
Record Err := mkErr { code : string }.

Inductive Outcome (A : Type) : Type :=
| Ok (a : A)
| Rejected (e : Err).
Arguments Ok {A} a.
Arguments Rejected {A} e.

Definition Async (S A : Type) : Type := S -> Outcome A * S.

Definition ret {S A} (a : A) : Async S A := fun s => (Ok a, s).

Definition throw {S A} (e : Err) : Async S A := fun s => (Rejected e, s).

Definition bind {S A B} (c : Async S A) (k : A -> Async S B) : Async S B :=
  fun s => match c s with
           | (Ok a, s') => k a s'
           | (Rejected e, s') => (Rejected e, s')
           end.

Definition gets {S A} (f : S -> A) : Async S A := fun s => (Ok (f s), s).

Definition modify {S} (f : S -> S) : Async S unit := fun s => (Ok tt, f s).

Declare Scope async_scope.
Delimit Scope async_scope with async.
Notation "x <- c ;; k" := (bind c (fun x => k))
  (at level 100, c at next level, right associativity) : async_scope.
Notation "c ;; k" := (bind c (fun _ => k))
  (at level 100, right associativity) : async_scope.
Local Open Scope async_scope.

(** [try { body } catch (err) { handler err } finally { fin }]. *)
Definition try_catch_finally {S} (body : Async S unit)
    (handler : Err -> Async S unit) (fin : Async S unit) : Async S unit :=
  fun s => match body s with
           | (Ok _, s') => fin s'
           | (Rejected e, s') =>
               match handler e s' with
               | (Ok _, s'') => fin s''
               | (Rejected e', s'') =>
                   match fin s'' with
                   | (Ok _, s''') => (Rejected e', s''')
                   | r => r
                   end
               end
           end.

(** [try { body } catch (err) { handler err }]. *)
Definition try_catch {S} (body : Async S unit)
    (handler : Err -> Async S unit) : Async S unit :=
  fun s => match body s with
           | (Ok a, s') => (Ok a, s')
           | (Rejected e, s') => handler e s'
           end.

(** The state a computation ends in, whether it returned or rejected. *)
Definition exec {S A} (c : Async S A) (s : S) : S := snd (c s).

(* ------------------------------------------------------------------ *)
(** ** [types.ts]: the profile record *)

Module Types.

(** Modelled from the spec: [src/types.ts] is not part of the sources; the
    fields are those of the object literals that build a [User] in
    [AuthGate.tsx] and of the Profile table of the data model. *)
Record User := mkUser {
  uid : string;
  name : string;
  email : string;
  points : Z;
  xp : Z;
  level : Z;
  role : string;
  isGhostMode : bool;
  twoFactorEnabled : bool;
  joinedAt : Z
}.

End Types.
Import Types.

(* ------------------------------------------------------------------ *)
(** ** The Firebase client: documents, session, listeners *)

Module Firebase.

(** The part of a signed-in Firebase user the handlers read. *)
Record FirebaseUser := mkFirebaseUser {
  fu_uid : string;
  displayName : option string;
  fu_email : option string
}.

(** What an awaited sign-in call resolves or rejects with. *)
Definition AuthReply : Type := Outcome FirebaseUser.

(** One entry of the object literal passed to [updateDoc]. *)
Inductive FieldWrite :=
| FXp (v : Z)
| FLevel (v : Z)
| FPoints (v : Z)
| FIsGhostMode (b : bool).

Definition writeField (f : FieldWrite) (d : User) : User :=
  match f with
  | FXp v =>
      mkUser (uid d) (name d) (email d) (points d) v (level d) (role d)
             (isGhostMode d) (twoFactorEnabled d) (joinedAt d)
  | FLevel v =>
      mkUser (uid d) (name d) (email d) (points d) (xp d) v (role d)
             (isGhostMode d) (twoFactorEnabled d) (joinedAt d)
  | FPoints v =>
      mkUser (uid d) (name d) (email d) v (xp d) (level d) (role d)
             (isGhostMode d) (twoFactorEnabled d) (joinedAt d)
  | FIsGhostMode b =>
      mkUser (uid d) (name d) (email d) (points d) (xp d) (level d) (role d)
             b (twoFactorEnabled d) (joinedAt d)
  end.

(** Merge-write: the listed fields are replaced, left to right. *)
Definition applyPatch (p : list FieldWrite) (d : User) : User :=
  fold_left (fun acc f => writeField f acc) p d.

(** A write call issued against the collection. *)
Inductive Write :=
| WSet (k : string) (d : User)
| WUpdate (k : string) (p : list FieldWrite).

(** [docs] is the ["users"] collection, [session] the signed-in user of
    [auth], [listeners] the document ids that have a snapshot listener
    attached (one entry per [onSnapshot] call).  [writes] is a history of
    the write calls issued, newest first; it is not in the program and
    only serves to say which calls a handler made. *)
Record Backend := mkBackend {
  docs : gmap string User;
  session : option FirebaseUser;
  listeners : list string;
  writes : list Write
}.

Record World (UI : Type) := mkWorld { cloud : Backend; ui : UI }.
Arguments mkWorld {UI} cloud ui.
Arguments cloud {UI} w.
Arguments ui {UI} w.

Definition onCloud {UI} (f : Backend -> Backend) (w : World UI) : World UI :=
  mkWorld (f (cloud w)) (ui w).

Definition onUI {UI} (f : UI -> UI) (w : World UI) : World UI :=
  mkWorld (cloud w) (f (ui w)).

Definition setDocs (m : gmap string User) (b : Backend) : Backend :=
  mkBackend m (session b) (listeners b) (writes b).

Definition setSession (s : option FirebaseUser) (b : Backend) : Backend :=
  mkBackend (docs b) s (listeners b) (writes b).

Definition addListener (k : string) (b : Backend) : Backend :=
  mkBackend (docs b) (session b) (k :: listeners b) (writes b).

Definition logWrite (c : Write) (b : Backend) : Backend :=
  mkBackend (docs b) (session b) (listeners b) (c :: writes b).

Section Client.
Context {UI : Type}.

(** [getDoc(doc(db, "users", k))]: the snapshot, [None] when
    [exists()] is false. *)
Definition getDoc (k : string) : Async (World UI) (option User) :=
  gets (fun w => docs (cloud w) !! k).

(** [setDoc(doc(db, "users", k), d)]: full overwrite. *)
Definition setDoc (k : string) (d : User) : Async (World UI) unit :=
  modify (onCloud (fun b => setDocs (<[k := d]> (docs b)) (logWrite (WSet k d) b))).

(** [updateDoc(doc(db, "users", k), p)]: merge into the existing document;
    rejects with [not-found] when there is none. *)
Definition updateDoc (k : string) (p : list FieldWrite) : Async (World UI) unit :=
  modify (onCloud (logWrite (WUpdate k p))) ;;
  snap <- getDoc k ;;
  match snap with
  | Some d => modify (onCloud (fun b => setDocs (<[k := applyPatch p d]> (docs b)) b))
  | None => throw (mkErr "not-found")
  end.

(** [onSnapshot(doc(db, "users", k), cb)]: the listener is attached; the
    handle it returns is what the caller does with it. *)
Definition onSnapshot (k : string) : Async (World UI) unit :=
  modify (onCloud (addListener k)).

(** A sign-in call: the provider's answer either opens the session or is
    thrown. *)
Definition signIn (reply : AuthReply) : Async (World UI) FirebaseUser :=
  match reply with
  | Ok fu => modify (onCloud (setSession (Some fu))) ;; ret fu
  | Rejected e => throw e
  end.

End Client.

End Firebase.
Import Firebase.

(* ------------------------------------------------------------------ *)
(** ** [App.tsx]: the application shell *)

Module App.

Record Toast := mkToast { message : string; color : string }.

(** The [useState] cells of the component that the handlers read or
    write.  [shown] is the history of [showToast] calls, newest first; it
    is not in the program and only serves to say which notifications a
    handler emitted ([toast] alone is cleared again by a timer). *)
Record State := mkState {
  user : option User;
  isLoading : bool;
  toast : option Toast;
  shown : list Toast
}.

Definition W : Type := World State.

Definition setUser (u : option User) : Async W unit :=
  modify (onUI (fun s => mkState u (isLoading s) (toast s) (shown s))).

Definition setIsLoading (b : bool) : Async W unit :=
  modify (onUI (fun s => mkState (user s) b (toast s) (shown s))).

(** [showToast(message, color)]; the timer that clears the toast three
    seconds later is left out. *)
Definition showToast (msg : string) (col : string) : Async W unit :=
  modify (onUI (fun s =>
    mkState (user s) (isLoading s) (Some (mkToast msg col))
            (mkToast msg col :: shown s))).

(** The default of [showToast]'s second parameter. *)
Definition defaultColor : string := "#ffd700".

(** The template literal of the level-up toast; [pretty] prints the
    integer in decimal, as the interpolation does. *)
Definition levelUpMessage (newLevel : Z) : string :=
  "تبريكات إمبراطورية! ارتقيت للمستوى " +:+ pretty newLevel +:+ " 🏆".

Definition ghostOffMessage : string := "تم إلغاء وضع الشبح".
Definition ghostOnMessage : string := "أنت الآن متخفٍ في الإمبراطورية 👻".
Definition logoutMessage : string := "تم الخروج من العرش بنجاح".

(** The callback given to [onSnapshot] at line 39:
    [(ds) => { if (ds.exists()) setUser(ds.data()) }]. *)
Definition snapshotCallback (ds : option User) : Async W unit :=
  match ds with
  | Some d => setUser (Some d)
  | None => ret tt
  end.

(** The callback given to [onAuthStateChanged] (lines 29-55). *)
Definition authObserver (firebaseUser : option FirebaseUser) : Async W unit :=
  match firebaseUser with
  | Some fu =>
      try_catch
        (docSnap <- getDoc (fu_uid fu) ;;
         match docSnap with
         | Some d =>
             setUser (Some d) ;;
             (* the unsubscribe handle onSnapshot returns is dropped *)
             onSnapshot (fu_uid fu)
         | None => setUser None
         end)
        (fun _ => ret tt)
  | None => setUser None
  end ;;
  setIsLoading false.

(** [addXP] (lines 65-79). *)
Definition addXP (amount : Z) : Async W unit :=
  cur <- gets (fun w => user (ui w)) ;;
  match cur with
  | None => ret tt
  | Some u =>
      let newXP := xp u + amount in
      let newLevel := level u in
      let xpToNextLevel := level u * 1000 in
      r <- (if newXP >=? xpToNextLevel
            then
              let newXP := newXP - xpToNextLevel in
              let newLevel := newLevel + 1 in
              showToast (levelUpMessage newLevel) "#ffd700" ;;
              ret (newXP, newLevel)
            else ret (newXP, newLevel)) ;;
      updateDoc (uid u) [FXp (fst r); FLevel (snd r)]
  end.

(** [updatePoints] (lines 81-85), the spec's [addPoints]. *)
Definition updatePoints (amount : Z) : Async W unit :=
  cur <- gets (fun w => user (ui w)) ;;
  match cur with
  | None => ret tt
  | Some u => updateDoc (uid u) [FPoints (points u + amount)]
  end.

(** [handleToggleGhost] (lines 87-92), the spec's [toggleGhostMode]. *)
Definition handleToggleGhost : Async W unit :=
  cur <- gets (fun w => user (ui w)) ;;
  match cur with
  | None => ret tt
  | Some u =>
      updateDoc (uid u) [FIsGhostMode (negb (isGhostMode u))] ;;
      showToast (if isGhostMode u then ghostOffMessage else ghostOnMessage)
                defaultColor
  end.

(** [signOut(auth)]: the session ends and the auth observer registered by
    the effect is told so. *)
Definition signOut : Async W unit :=
  modify (onCloud (setSession None)) ;;
  authObserver None.

(** [handleLogout] (lines 94-100), the spec's [signOut()]. *)
Definition handleLogout : Async W unit :=
  setIsLoading true ;;
  signOut ;;
  setUser None ;;
  showToast logoutMessage "#ff4444" ;;
  setIsLoading false.

(** The store hands the current snapshot of document [k] to every
    listener attached to it, oldest registration first. *)
Definition deliver (k : string) (w : W) : W :=
  fold_right
    (fun l acc =>
       if String.eqb l k
       then exec (snapshotCallback (docs (cloud acc) !! k)) acc
       else acc)
    w (listeners (cloud w)).

(** Another client (or the console) replaces document [k]; the store then
    notifies the listeners of [k]. *)
Definition remoteWrite (k : string) (d : User) (w : W) : W :=
  deliver k (onCloud (fun b => setDocs (<[k := d]> (docs b)) b) w).

(** What can happen to the mounted application. *)
Inductive Event :=
| AuthChanged (firebaseUser : option FirebaseUser)
| Snapshot (k : string)
| RemoteWrite (k : string) (d : User)
| AddXP (amount : Z)
| UpdatePoints (amount : Z)
| ToggleGhost
| Logout.

Definition step (w : W) (e : Event) : W :=
  match e with
  | AuthChanged fu =>
      exec (modify (onCloud (setSession fu)) ;; authObserver fu) w
  | Snapshot k => deliver k w
  | RemoteWrite k d => remoteWrite k d w
  | AddXP amount => exec (addXP amount) w
  | UpdatePoints amount => exec (updatePoints amount) w
  | ToggleGhost => exec handleToggleGhost w
  | Logout => exec handleLogout w
  end.

Definition run (es : list Event) (w : W) : W := fold_left step es w.

(** The application right after mounting, over a given collection. *)
Definition mounted (m : gmap string User) : W :=
  mkWorld (mkBackend m None [] []) (mkState None true None []).

End App.

(* ------------------------------------------------------------------ *)
(** ** [AuthGate.tsx]: the sign-in handlers *)

Module AuthGate.

(** The [useState] cells of the component. *)
Record State := mkState {
  isLogin : bool;
  email : string;
  password : string;
  name : string;
  loading : bool;
  error : string
}.

Definition W : Type := World State.

Definition setLoading (b : bool) : Async W unit :=
  modify (onUI (fun s =>
    mkState (isLogin s) (email s) (password s) (name s) b (error s))).

Definition setError (msg : string) : Async W unit :=
  modify (onUI (fun s =>
    mkState (isLogin s) (email s) (password s) (name s) (loading s) msg)).

(** The payload the Telegram widget hands to [window.onTelegramAuth]. *)
Record TgUser := mkTgUser {
  id : Z;
  first_name : string;
  last_name : option string;
  username : option string
}.

(** [o ? f(o) : d] for a string that may be missing: a missing value and
    the empty string are both falsy. *)
Definition ifTruthy {A} (o : option string) (f : string -> A) (d : A) : A :=
  match o with
  | Some s => if String.eqb s "" then d else f s
  | None => d
  end.

(** [o || d]. *)
Definition orDefault (o : option string) (d : string) : string :=
  ifTruthy o (fun s => s) d.

Definition telegramFailed : string := "فشل تسجيل الدخول عبر تليجرام. حاول لاحقاً.".
Definition googleFailed : string := "فشل الدخول بجوجل. تأكد من السماح بالنوافذ المنبثقة.".
Definition userNotFound : string := "المستخدم غير موجود".
Definition badCredentials : string := "خطأ في البريد أو كلمة المرور".
Definition anonymousSultan : string := "سلطان مجهول".
Definition newSultan : string := "سلطان جديد".

(** The object literal of lines 43-54. *)
Definition telegramUser (firebaseUser : FirebaseUser) (tgUser : TgUser)
    (now : Z) : User :=
  mkUser (fu_uid firebaseUser)
         (first_name tgUser
            +:+ ifTruthy (last_name tgUser) (fun l => " " +:+ l) "")
         (ifTruthy (username tgUser)
            (fun u => "@" +:+ u) ("tg_" +:+ pretty (id tgUser)))
         1000 0 1 "member" false false now.

(** [window.onTelegramAuth] (lines 33-63); [reply] is what
    [signInAnonymously] settles with. *)
Definition onTelegramAuth (reply : AuthReply) (now : Z) (tgUser : TgUser)
    : Async W unit :=
  setLoading true ;;
  setError "" ;;
  try_catch_finally
    (firebaseUser <- signIn reply ;;
     docSnap <- getDoc (fu_uid firebaseUser) ;;
     match docSnap with
     | None => setDoc (fu_uid firebaseUser) (telegramUser firebaseUser tgUser now)
     | Some _ => ret tt
     end)
    (fun _ => setError telegramFailed)
    (setLoading false).

(** The object literal of lines 92-103. *)
Definition googleUser (firebaseUser : FirebaseUser) (now : Z) : User :=
  mkUser (fu_uid firebaseUser)
         (orDefault (displayName firebaseUser) anonymousSultan)
         (orDefault (fu_email firebaseUser) "")
         1000 0 1 "member" false false now.

(** [handleGoogleLogin] (lines 82-112); [reply] is what [signInWithPopup]
    settles with. *)
Definition handleGoogleLogin (reply : AuthReply) (now : Z) : Async W unit :=
  setLoading true ;;
  setError "" ;;
  try_catch_finally
    (firebaseUser <- signIn reply ;;
     docSnap <- getDoc (fu_uid firebaseUser) ;;
     match docSnap with
     | None => setDoc (fu_uid firebaseUser) (googleUser firebaseUser now)
     | Some _ => ret tt
     end)
    (fun _ => setError googleFailed)
    (setLoading false).

(** The object literal of lines 127-138. *)
Definition passwordUser (firebaseUser : FirebaseUser) (s : State) (now : Z)
    : User :=
  mkUser (fu_uid firebaseUser)
         (orDefault (Some (name s)) newSultan)
         (email s)
         1000 0 1 "member" false false now.

(** [handleSubmit] (lines 114-146); [reply] is what
    [signInWithEmailAndPassword] or [createUserWithEmailAndPassword]
    settles with for the [email] and [password] of the form. *)
Definition handleSubmit (reply : AuthReply) (now : Z) : Async W unit :=
  s <- gets ui ;;
  if loading s then ret tt
  else
    setLoading true ;;
    setError "" ;;
    try_catch_finally
      (if isLogin s
       then signIn reply ;; ret tt
       else
         firebaseUser <- signIn reply ;;
         setDoc (fu_uid firebaseUser) (passwordUser firebaseUser s now))
      (fun err =>
         setError (if String.eqb (code err) "auth/user-not-found"
                   then userNotFound else badCredentials))
      (setLoading false).

End AuthGate.

(* ------------------------------------------------------------------ *)
(** ** Vocabulary of the statements *)

(** The profile fields that neither [addXP] nor [updatePoints] names in
    its write. *)
Definition identityFields (d : User)
    : string * string * string * string * bool * bool * Z :=
  (uid d, name d, email d, role d, isGhostMode d, twoFactorEnabled d,
   joinedAt d).

(** [Number.isSafeInteger]: an integer that a double holds exactly and
    that is told apart from its neighbours (magnitude at most
    [Number.MAX_SAFE_INTEGER] = 2^53 - 1).  Sums, differences and products
    of safe integers whose exact value is a safe integer are computed
    exactly by the program, and a safe integer prints in plain decimal. *)
Definition safeInteger (z : Z) : Prop := - (2 ^ 53 - 1) <= z <= 2 ^ 53 - 1.

(** What [addXP] computes before its test, [xp + amount] and
    [level * 1000], is exact. *)
Definition safeThreshold (u : User) (amount : Z) : Prop :=
  safeInteger (xp u) /\ safeInteger (level u) /\ safeInteger amount
  /\ safeInteger (xp u + amount) /\ safeInteger (level u * 1000).

(** What [addXP] computes in its level-up branch is exact as well. *)
Definition safeLevelUp (u : User) (amount : Z) : Prop :=
  safeThreshold u amount
  /\ safeInteger (xp u + amount - level u * 1000)
  /\ safeInteger (level u + 1).

(** The profile [d] with its [xp] and [level] replaced. *)
Definition withProgress (newXP newLevel : Z) (d : User) : User :=
  mkUser (uid d) (name d) (email d) (points d) newXP newLevel (role d)
         (isGhostMode d) (twoFactorEnabled d) (joinedAt d).

(** The toast a level-up to [newLevel] shows. *)
Definition levelUpToast (newLevel : Z) : App.Toast :=
  App.mkToast (App.levelUpMessage newLevel) "#ffd700".

(** The toast one call of [handleToggleGhost] shows when the mirror holds
    the flag [ghost]. *)
Definition ghostToast (ghost : bool) : App.Toast :=
  App.mkToast (if ghost then App.ghostOffMessage else App.ghostOnMessage)
              App.defaultColor.

(** The mirror after the listeners of a document have run with the
    snapshot [ds]. *)
Definition mirrored (ds : option User) (s : App.State) : App.State :=
  match ds with
  | Some d => App.mkState (Some d) (App.isLoading s) (App.toast s) (App.shown s)
  | None => s
  end.

(** The form once a handler has finished without an error message. *)
Definition settled (s : AuthGate.State) (msg : string) : AuthGate.State :=
  AuthGate.mkState (AuthGate.isLogin s) (AuthGate.email s)
                   (AuthGate.password s) (AuthGate.name s) false msg.

(** The collection after create-if-absent of [d] under [k]. *)
Definition provisioned (k : string) (d : User) (fu : FirebaseUser)
    (b : Backend) : Backend :=
  match docs b !! k with
  | Some _ => mkBackend (docs b) (Some fu) (listeners b) (writes b)
  | None =>
      mkBackend (<[k := d]> (docs b)) (Some fu) (listeners b)
                (WSet k d :: writes b)
  end.

(** A profile as sign-up leaves it, and a session for it. *)
Definition amira : User :=
  mkUser "u1" "Amira" "a@x.com" 1000 0 1 "member" false false 1700000000000.

Definition amiraSession : FirebaseUser :=
  mkFirebaseUser "u1" (Some "Amira") (Some "a@x.com").

(** [amira] after some other client has credited her 4000 points. *)
Definition amiraCredited : User :=
  mkUser "u1" "Amira" "a@x.com" 5000 0 1 "member" false false 1700000000000.

(** The same account after its owner changed the name and address kept
    by the identity provider. *)
Definition renamedSession : FirebaseUser :=
  mkFirebaseUser "u1" (Some "Amira H.") (Some "amira@y.org").

(** The application once [amira] has signed in: the observer has read her
    document and attached the snapshot listener. *)
Definition signedIn : App.W :=
  App.run [App.AuthChanged (Some amiraSession)] (App.mounted {[ "u1" := amira ]}).

(** The application with nobody signed in. *)
Definition signedOut : App.W := App.mounted {[ "u1" := amira ]}.

(** [AuthGate] showing the sign-up form filled in by Amira, over an empty
    collection. *)
Definition signUpForm : AuthGate.W :=
  mkWorld (mkBackend ∅ None [] [])
          (AuthGate.mkState false "a@x.com" "p" "Amira" false "").

(** [AuthGate] showing the sign-in form, over a collection that already
    holds [amira]. *)
Definition signInForm : AuthGate.W :=
  mkWorld (mkBackend {[ "u1" := amira ]} None [] [])
          (AuthGate.mkState true "a@x.com" "p" "" false "").

(** The Telegram payload of the bridged sign-in scenario. *)
Definition omar : AuthGate.TgUser :=
  AuthGate.mkTgUser 55 "Omar" None (Some "omarx").

Definition anonymousSession : FirebaseUser :=
  mkFirebaseUser "anon1" None None.

(* ------------------------------------------------------------------ *)
(** ** Vocabulary of the further properties *)

(** The thresholds of the levels 1 to [n]: 1000 + 2000 + ... + n*1000. *)
Fixpoint thresholdsUpTo (n : nat) : Z :=
  match n with
  | O => 0
  | S m => thresholdsUpTo m + Z.of_nat (S m) * 1000
  end.

(** The experience it took to reach level [l] from level 1. *)
Definition spentBelow (l : Z) : Z := thresholdsUpTo (Z.to_nat (l - 1)).

(** What the component renders (lines 102-150): the splash while
    loading, [AuthGate] without a profile, the shell with one. *)
Inductive Screen :=
| Splash
| Gate
| Shell (u : User).

Definition screen (s : App.State) : Screen :=
  if App.isLoading s then Splash
  else match App.user s with
       | None => Gate
       | Some u => Shell u
       end.

(** [getDoc] with the fate of the read as an input: [Some e] when the
    store refuses the read with [e], [None] when it answers. *)
Definition getDocOr {UI} (failure : option Err) (k : string)
    : Async (World UI) (option User) :=
  match failure with
  | Some e => throw e
  | None => getDoc k
  end.

(** The callback given to [onAuthStateChanged] (lines 29-55) with the
    fate of its read as an input; a refused read ends in the [catch] of
    lines 48-50, which only logs.  [App.authObserver] is the case of a
    read that is answered. *)
Definition authObserverOn (failure : option Err)
    (firebaseUser : option FirebaseUser) : Async App.W unit :=
  match firebaseUser with
  | Some fu =>
      try_catch
        (docSnap <- getDocOr failure (fu_uid fu) ;;
         match docSnap with
         | Some d =>
             App.setUser (Some d) ;;
             onSnapshot (fu_uid fu)
         | None => App.setUser None
         end)
        (fun _ => ret tt)
  | None => App.setUser None
  end ;;
  App.setIsLoading false.

(** [signOut(auth)] with its fate as an input: [Some e] when the call
    rejects with [e] (the session then stays and the observer is not
    told anything). *)
Definition signOutOn (failure : option Err) : Async App.W unit :=
  match failure with
  | Some e => throw e
  | None => App.signOut
  end.

(** [handleLogout] (lines 94-100) with the fate of [signOut] as an input;
    the handler has no [try], so a rejection ends it on the spot.
    [App.handleLogout] is the case of a [signOut] that resolves. *)
Definition handleLogoutOn (failure : option Err) : Async App.W unit :=
  App.setIsLoading true ;;
  signOutOn failure ;;
  App.setUser None ;;
  App.showToast App.logoutMessage "#ff4444" ;;
  App.setIsLoading false.

(** Another client deletes document [k]; the store then notifies the
    listeners of [k] with a snapshot that does not exist. *)
Definition remoteDelete (k : string) (w : App.W) : App.W :=
  App.deliver k (onCloud (fun b => setDocs (delete k (docs b)) b) w).

(** Every document is stored under the uid it carries. *)
Definition wellKeyed (m : gmap string User) : Prop :=
  map_Forall (fun k d => uid d = k) m.

(** A write by another client that respects [wellKeyed]. *)
Definition wellKeyedEvent (e : App.Event) : Prop :=
  match e with
  | App.RemoteWrite k d => uid d = k
  | _ => True
  end.

(** Whenever the mirror holds a profile, a listener is attached to the
    document of that profile. *)
Definition subscribed (w : App.W) : Prop :=
  forall u, App.user (ui w) = Some u -> uid u ∈ listeners (cloud w).

(** [n] rounds of signing in as [fu] and logging out again. *)
Definition sessions (n : nat) (fu : FirebaseUser) : list App.Event :=
  concat (replicate n [App.AuthChanged (Some fu); App.Logout]).

(** The field values every sign-in handler gives a new profile. *)
Definition defaultShaped (d : User) : Prop :=
  points d = 1000 /\ xp d = 0 /\ level d = 1 /\ role d = "member"
  /\ isGhostMode d = false /\ twoFactorEnabled d = false.

(** The profile fields that [handleToggleGhost] does not name in its
    write. *)
Definition nonGhostFields (d : User)
    : string * string * string * Z * Z * Z * string * bool * Z :=
  (uid d, name d, email d, points d, xp d, level d, role d,
   twoFactorEnabled d, joinedAt d).

(** The application whose mirror still holds [amira] although her
    document has been deleted. *)
Definition orphaned : App.W := remoteDelete "u1" signedIn.

(** [AuthGate] showing the sign-up form with the name left empty, over a
    collection that already holds [amira], who has 5000 points. *)
Definition signUpOverAmira : AuthGate.W :=
  mkWorld (mkBackend {[ "u1" := amiraCredited ]} None [] [])
          (AuthGate.mkState false "new@x.com" "p" "" false "").

(** [AuthGate] while an earlier submission is still in flight. *)
Definition busyForm : AuthGate.W :=
  mkWorld (mkBackend ∅ None [] [])
          (AuthGate.mkState false "a@x.com" "p" "Amira" true "").

(* ------------------------------------------------------------------ *)
(** ** Running the combinators *)

Ltac unfold_async :=
  unfold exec, try_catch_finally, try_catch, bind, gets, modify, ret, throw.

Ltac unfold_client :=
  unfold updateDoc, setDoc, getDoc, onSnapshot, signIn.

Ltac unfold_gate :=
  unfold AuthGate.handleSubmit, AuthGate.handleGoogleLogin,
         AuthGate.onTelegramAuth, AuthGate.setLoading, AuthGate.setError.


Lemma exec_eq {S A} (c c' : Async S A) (s s' : S) :
  c s = c' s' -> exec c s = exec c' s'.
Proof. intros E. unfold exec. by rewrite E. Qed.

(* ------------------------------------------------------------------ *)
(** ** The store client *)

Section ClientFacts.
Context {UI : Type}.
Implicit Types (w : World UI) (d : User) (k : string) (p : list FieldWrite).

(** [updateDoc] on an existing document, run to its end. *)
Lemma updateDoc_present w k p d :
  docs (cloud w) !! k = Some d ->
  updateDoc k p w =
    (Ok tt,
     mkWorld (mkBackend (<[k := applyPatch p d]> (docs (cloud w)))
                        (session (cloud w)) (listeners (cloud w))
                        (WUpdate k p :: writes (cloud w)))
             (ui w)).
Proof.
  intros Hd. unfold_client. unfold_async. cbn. rewrite Hd. reflexivity.
Qed.

(** [updateDoc] on a missing document rejects after the call is made. *)
Lemma updateDoc_absent w k p :
  docs (cloud w) !! k = None ->
  updateDoc k p w =
    (Rejected (mkErr "not-found"),
     mkWorld (mkBackend (docs (cloud w)) (session (cloud w))
                        (listeners (cloud w))
                        (WUpdate k p :: writes (cloud w)))
             (ui w)).
Proof.
  intros Hd. unfold_client. unfold_async. cbn. rewrite Hd. reflexivity.
Qed.

(** Whatever happens, [updateDoc] logs its call, leaves the interface
    state alone and changes at most document [k], by [applyPatch]. *)
Lemma updateDoc_effect w k p :
  writes (cloud (exec (updateDoc k p) w)) = WUpdate k p :: writes (cloud w)
  /\ ui (exec (updateDoc k p) w) = ui w
  /\ listeners (cloud (exec (updateDoc k p) w)) = listeners (cloud w)
  /\ docs (cloud (exec (updateDoc k p) w)) =
       match docs (cloud w) !! k with
       | Some d => <[k := applyPatch p d]> (docs (cloud w))
       | None => docs (cloud w)
       end.
Proof.
  unfold exec. destruct (docs (cloud w) !! k) as [d|] eqn:Hd.
  - rewrite (updateDoc_present w k p d Hd). cbn. auto.
  - rewrite (updateDoc_absent w k p Hd). cbn. auto.
Qed.

(** A patch that agrees with the identity on a projection leaves that
    projection of every document as it was. *)
Lemma frame_after_patch {A} (f : User -> A) (m : gmap string User) k p :
  (forall d, f (applyPatch p d) = f d) ->
  forall j,
    f <$> (match m !! k with
           | Some d => <[k := applyPatch p d]> m
           | None => m
           end) !! j
    = f <$> m !! j.
Proof.
  intros Hf j. destruct (m !! k) as [d|] eqn:Hd; [|reflexivity].
  destruct (decide (k = j)) as [->|Hne].
  - rewrite lookup_insert_eq, Hd. cbn. by rewrite Hf.
  - by rewrite lookup_insert_ne.
Qed.

End ClientFacts.

(* ------------------------------------------------------------------ *)
(** ** [addXP], [updatePoints], [handleToggleGhost] *)

Section Mutations.
Implicit Types (w : App.W) (u d : User) (amount : Z) (k : string).

(** [addXP] when the threshold is reached: the toast, then the write. *)
Lemma addXP_reached w u amount :
  App.user (ui w) = Some u ->
  level u * 1000 <= xp u + amount ->
  App.addXP amount w =
    updateDoc (uid u)
      [FXp (xp u + amount - level u * 1000); FLevel (level u + 1)]
      (exec (App.showToast (App.levelUpMessage (level u + 1)) "#ffd700") w).
Proof.
  intros Hu Hge. unfold App.addXP, bind at 1, gets. rewrite Hu.
  assert (Hb : (xp u + amount >=? level u * 1000) = true)
    by (apply Z.geb_le; lia).
  cbv zeta. rewrite Hb. unfold exec, bind, ret, App.showToast, modify.
  reflexivity.
Qed.

(** [addXP] below the threshold: the write alone. *)
Lemma addXP_below w u amount :
  App.user (ui w) = Some u ->
  xp u + amount < level u * 1000 ->
  App.addXP amount w =
    updateDoc (uid u) [FXp (xp u + amount); FLevel (level u)] w.
Proof.
  intros Hu Hlt. unfold App.addXP, bind at 1, gets. rewrite Hu.
  assert (Hb : (xp u + amount >=? level u * 1000) = false).
  { destruct (xp u + amount >=? level u * 1000) eqn:E; [|reflexivity].
    apply Z.geb_le in E. lia. }
  cbv zeta. rewrite Hb. unfold bind, ret. reflexivity.
Qed.

(** C1. When the mirror holds a profile with [level*1000 <= xp+amount],
    all numbers being safe integers, [addXP amount] shows one level-up
    toast naming [level+1] and issues one write of
    [xp := xp+amount-level*1000] (the threshold of the level before the
    increment) and [level := level+1]; the stored document of that uid
    takes exactly these two values.  No upper bound in terms of the
    threshold is needed: however far the threshold is exceeded, the level
    advances by one. *)
Theorem addXP_level_up w u amount :
  App.user (ui w) = Some u ->
  safeLevelUp u amount ->
  level u * 1000 <= xp u + amount ->
  let newXP := xp u + amount - level u * 1000 in
  let newLevel := level u + 1 in
  let w' := exec (App.addXP amount) w in
  writes (cloud w') =
    WUpdate (uid u) [FXp newXP; FLevel newLevel] :: writes (cloud w)
  /\ docs (cloud w') =
       match docs (cloud w) !! uid u with
       | Some d => <[uid u := withProgress newXP newLevel d]> (docs (cloud w))
       | None => docs (cloud w)
       end
  /\ App.shown (ui w') = levelUpToast newLevel :: App.shown (ui w)
  /\ App.toast (ui w') = Some (levelUpToast newLevel).
Proof.
  intros Hu _ Hge newXP newLevel w'. subst w'.
  rewrite (exec_eq _ _ _ _ (addXP_reached w u amount Hu Hge)). unfold App.W.
  destruct (updateDoc_effect
              (exec (App.showToast (App.levelUpMessage newLevel) "#ffd700") w)
              (uid u) [FXp newXP; FLevel newLevel])
    as (Hw & Hui & _ & Hdocs).
  subst newXP newLevel. unfold App.W in *. rewrite Hw, Hui, Hdocs. auto.
Qed.

(** The scenario of C1: [addXP(1200)] on [{xp: 0, level: 1}] stores
    [{xp: 200, level: 2}] and shows the toast for level 2. *)
Lemma addXP_level_up_witness :
  App.user (ui signedIn) = Some amira
  /\ safeLevelUp amira 1200
  /\ level amira * 1000 <= xp amira + 1200
  /\ let w' := exec (App.addXP 1200) signedIn in
     writes (cloud w') = [WUpdate "u1" [FXp 200; FLevel 2]]
     /\ docs (cloud w') = {[ "u1" := withProgress 200 2 amira ]}
     /\ App.shown (ui w') = [levelUpToast 2]
     /\ App.toast (ui w') = Some (levelUpToast 2).
Proof.
  assert (Hu : App.user (ui signedIn) = Some amira) by reflexivity.
  assert (Hsafe : safeLevelUp amira 1200)
    by (unfold safeLevelUp, safeThreshold, safeInteger; cbn; lia).
  assert (Hge : level amira * 1000 <= xp amira + 1200) by (cbn; lia).
  split; [exact Hu|]. split; [exact Hsafe|]. split; [exact Hge|].
  destruct (addXP_level_up signedIn amira 1200 Hu Hsafe Hge)
    as (Hw & Hd & Hs & Ht).
  split; [exact Hw|]. split; [|split; [exact Hs|exact Ht]].
  rewrite Hd. cbn. apply insert_singleton_eq.
Defined.

(** One call never climbs two levels: 5000 XP at level 1 ends at level 2
    with 4000 XP, itself above the threshold of level 2. *)
Example addXP_single_step :
  docs (cloud (exec (App.addXP 5000) signedIn)) !! "u1"
    = Some (withProgress 4000 2 amira).
Proof. reflexivity. Qed.

(** C3. When the mirror holds a profile with [xp+amount < level*1000],
    all numbers being safe integers, [addXP amount] issues one write of
    [xp := xp+amount] with the level it read, the stored document of that
    uid takes these values, and no toast is shown. *)
Theorem addXP_same_level w u amount :
  App.user (ui w) = Some u ->
  safeThreshold u amount ->
  xp u + amount < level u * 1000 ->
  let w' := exec (App.addXP amount) w in
  writes (cloud w') =
    WUpdate (uid u) [FXp (xp u + amount); FLevel (level u)] :: writes (cloud w)
  /\ docs (cloud w') =
       match docs (cloud w) !! uid u with
       | Some d =>
           <[uid u := withProgress (xp u + amount) (level u) d]> (docs (cloud w))
       | None => docs (cloud w)
       end
  /\ App.shown (ui w') = App.shown (ui w)
  /\ App.toast (ui w') = App.toast (ui w).
Proof.
  intros Hu _ Hlt w'. subst w'.
  rewrite (exec_eq _ _ _ _ (addXP_below w u amount Hu Hlt)). unfold App.W.
  destruct (updateDoc_effect w (uid u) [FXp (xp u + amount); FLevel (level u)])
    as (Hw & Hui & _ & Hdocs).
  rewrite Hw, Hui, Hdocs. auto.
Qed.

Lemma addXP_same_level_witness :
  App.user (ui signedIn) = Some amira
  /\ safeThreshold amira 300
  /\ xp amira + 300 < level amira * 1000
  /\ let w' := exec (App.addXP 300) signedIn in
     writes (cloud w') = [WUpdate "u1" [FXp 300; FLevel 1]]
     /\ docs (cloud w') = {[ "u1" := withProgress 300 1 amira ]}
     /\ App.shown (ui w') = []
     /\ App.toast (ui w') = None.
Proof.
  assert (Hu : App.user (ui signedIn) = Some amira) by reflexivity.
  assert (Hsafe : safeThreshold amira 300)
    by (unfold safeThreshold, safeInteger; cbn; lia).
  assert (Hlt : xp amira + 300 < level amira * 1000) by (cbn; lia).
  split; [exact Hu|]. split; [exact Hsafe|]. split; [exact Hlt|].
  destruct (addXP_same_level signedIn amira 300 Hu Hsafe Hlt)
    as (Hw & Hd & Hs & Ht).
  split; [exact Hw|]. split; [|split; [exact Hs|exact Ht]].
  rewrite Hd. cbn. apply insert_singleton_eq.
Defined.

(** The null guards: with no profile in the mirror the handlers return
    before doing anything. *)
Lemma mutations_without_profile_aux w amount :
  App.user (ui w) = None ->
  App.addXP amount w = (Ok tt, w)
  /\ App.updatePoints amount w = (Ok tt, w)
  /\ App.handleToggleGhost w = (Ok tt, w).
Proof.
  intros Hu. unfold App.addXP, App.updatePoints, App.handleToggleGhost.
  unfold bind, gets. rewrite Hu. auto.
Qed.

(** C10. With no profile in the mirror each of the three mutation
    handlers returns at once and leaves everything as it was: the
    collection, the history of write calls, the mirror and the toasts. *)
Theorem mutations_without_profile w amount :
  App.user (ui w) = None ->
  App.addXP amount w = (Ok tt, w)
  /\ App.updatePoints amount w = (Ok tt, w)
  /\ App.handleToggleGhost w = (Ok tt, w).
Proof.
  exact (mutations_without_profile_aux w amount).
Qed.

Lemma mutations_without_profile_witness :
  App.user (ui signedOut) = None
  /\ App.addXP 1200 signedOut = (Ok tt, signedOut)
  /\ App.updatePoints 1200 signedOut = (Ok tt, signedOut)
  /\ App.handleToggleGhost signedOut = (Ok tt, signedOut).
Proof.
  assert (Hu : App.user (ui signedOut) = None) by reflexivity.
  split; [exact Hu|].
  exact (mutations_without_profile signedOut 1200 Hu).
Defined.

End Mutations.

(* ------------------------------------------------------------------ *)
(** ** What the mutations leave alone *)

Section Frame.
Implicit Types (w : App.W) (u d : User) (amount : Z) (k : string).

(** The write [addXP] makes, whichever branch it takes. *)
Lemma addXP_as_update w u amount :
  App.user (ui w) = Some u ->
  exists a b w1,
    App.addXP amount w = updateDoc (uid u) [FXp a; FLevel b] w1
    /\ cloud w1 = cloud w /\ App.user (ui w1) = App.user (ui w).
Proof.
  intros Hu. destruct (Z_lt_le_dec (xp u + amount) (level u * 1000)) as [Hlt|Hge].
  - exists (xp u + amount), (level u), w.
    by rewrite (addXP_below w u amount Hu Hlt).
  - eexists _, _, _. rewrite (addXP_reached w u amount Hu Hge).
    split; [reflexivity|]. split; reflexivity.
Qed.

(** C9. [addXP] issues at most one store call, an [updateDoc] naming [xp]
    and [level] only, and [updatePoints] one naming [points] only; in
    every document of the collection the fields uid, name, email, role,
    isGhostMode, twoFactorEnabled and joinedAt are as before (so are
    [points] after [addXP], and [xp] and [level] after [updatePoints]), no
    document appears or disappears, and the mirror [user] is not assigned
    by either handler. *)
Theorem xp_and_points_frame w amount :
  (let w' := exec (App.addXP amount) w in
   App.user (ui w') = App.user (ui w)
   /\ match App.user (ui w) with
      | Some u => exists a b,
          writes (cloud w') = WUpdate (uid u) [FXp a; FLevel b] :: writes (cloud w)
      | None => writes (cloud w') = writes (cloud w)
      end
   /\ forall k,
        identityFields <$> docs (cloud w') !! k
          = identityFields <$> docs (cloud w) !! k
        /\ points <$> docs (cloud w') !! k = points <$> docs (cloud w) !! k)
  /\
  (let w' := exec (App.updatePoints amount) w in
   App.user (ui w') = App.user (ui w)
   /\ match App.user (ui w) with
      | Some u =>
          writes (cloud w') =
            WUpdate (uid u) [FPoints (points u + amount)] :: writes (cloud w)
      | None => writes (cloud w') = writes (cloud w)
      end
   /\ forall k,
        identityFields <$> docs (cloud w') !! k
          = identityFields <$> docs (cloud w) !! k
        /\ xp <$> docs (cloud w') !! k = xp <$> docs (cloud w) !! k
        /\ level <$> docs (cloud w') !! k = level <$> docs (cloud w) !! k).
Proof.
  split.
  - intros w'. subst w'. destruct (App.user (ui w)) as [u|] eqn:Hu.
    + destruct (addXP_as_update w u amount Hu) as (a & b & w1 & E & Hc & Hm).
      assert (E' : exec (App.addXP amount) w
                   = exec (updateDoc (uid u) [FXp a; FLevel b]) w1)
        by (unfold exec; by rewrite E).
      rewrite E'.
      destruct (updateDoc_effect w1 (uid u) [FXp a; FLevel b])
        as (Hw & Hui & _ & Hdocs).
      rewrite Hw, Hui, Hdocs, Hc. split; [by rewrite Hm, Hu|].
      split; [by exists a, b|].
      intros k; split; by apply frame_after_patch.
    + destruct (mutations_without_profile_aux w amount Hu) as (E & _).
      unfold exec. rewrite E. cbn. rewrite Hu. auto.
  - intros w'. subst w'. destruct (App.user (ui w)) as [u|] eqn:Hu.
    + assert (E : App.updatePoints amount w
                  = updateDoc (uid u) [FPoints (points u + amount)] w).
      { unfold App.updatePoints, bind at 1, gets. by rewrite Hu. }
      assert (E' : exec (App.updatePoints amount) w
                   = exec (updateDoc (uid u) [FPoints (points u + amount)]) w)
        by (unfold exec; by rewrite E).
      rewrite E'.
      destruct (updateDoc_effect w (uid u) [FPoints (points u + amount)])
        as (Hw & Hui & _ & Hdocs).
      rewrite Hw, Hui, Hdocs. split; [by rewrite Hu|].
      split; [reflexivity|].
      intros k; repeat split; by apply frame_after_patch.
    + destruct (mutations_without_profile_aux w amount Hu) as (_ & E & _).
      unfold exec. rewrite E. cbn. rewrite Hu. auto.
Qed.

End Frame.

(* ------------------------------------------------------------------ *)
(** ** The snapshot listener *)

Section Listener.
Implicit Types (w : App.W) (u d : User) (k : string).

Lemma deliver_spec w k :
  App.deliver k w =
    mkWorld (cloud w)
      (if existsb (fun l => String.eqb l k) (listeners (cloud w))
       then mirrored (docs (cloud w) !! k) (ui w)
       else ui w).
Proof.
  unfold App.deliver. generalize (listeners (cloud w)) as ls.
  induction ls as [|l ls IH]; cbn [fold_right existsb].
  - by destruct w.
  - rewrite IH. cbn [cloud ui]. destruct (String.eqb l k); cbn [orb].
    + unfold exec, App.snapshotCallback, mirrored.
      destruct (docs (cloud w) !! k) as [d|]; cbn.
      * by destruct (existsb _ ls).
      * by destruct (existsb _ ls).
    + reflexivity.
Qed.

Lemma attached_existsb k (ls : list string) :
  k ∈ ls -> existsb (fun l => String.eqb l k) ls = true.
Proof.
  intros Hin. apply existsb_exists. exists k. split.
  - by apply list_elem_of_In.
  - apply String.eqb_refl.
Qed.

(** A listener attached to [k] copies the document into the mirror. *)
Lemma deliver_attached w k d :
  k ∈ listeners (cloud w) ->
  docs (cloud w) !! k = Some d ->
  App.deliver k w =
    mkWorld (cloud w)
      (App.mkState (Some d) (App.isLoading (ui w)) (App.toast (ui w))
                   (App.shown (ui w))).
Proof.
  intros Hin Hd. rewrite deliver_spec, (attached_existsb _ _ Hin), Hd.
  reflexivity.
Qed.

(** [handleLogout] run to its end: the session and the mirror are
    cleared, the toast is shown; the collection and the attached
    listeners are what they were. *)
Lemma handleLogout_spec w :
  App.handleLogout w =
    (Ok tt,
     mkWorld (mkBackend (docs (cloud w)) None (listeners (cloud w))
                        (writes (cloud w)))
             (App.mkState None false
                (Some (App.mkToast App.logoutMessage "#ff4444"))
                (App.mkToast App.logoutMessage "#ff4444" :: App.shown (ui w)))).
Proof. reflexivity. Qed.

(** No event detaches a listener. *)
Lemma step_keeps_listeners w (e : App.Event) k :
  k ∈ listeners (cloud w) -> k ∈ listeners (cloud (App.step w e)).
Proof.
  intros Hin. destruct e as [fu|j|j d|amount|amount| |]; cbn [App.step].
  - destruct fu as [fu|]; [|exact Hin].
    unfold exec, App.authObserver, bind, modify, try_catch, getDoc, gets. cbn.
    destruct (docs (cloud w) !! fu_uid fu); cbn; [|exact Hin].
    by apply list_elem_of_further.
  - by rewrite deliver_spec.
  - unfold App.remoteWrite. by rewrite deliver_spec.
  - destruct (App.user (ui w)) as [u|] eqn:Hu.
    + destruct (addXP_as_update w u amount Hu) as (a & b & w1 & E & Hc & _).
      rewrite (exec_eq _ _ _ _ E). unfold App.W.
      destruct (updateDoc_effect w1 (uid u) [FXp a; FLevel b]) as (_ & _ & Hl & _).
      by rewrite Hl, Hc.
    + destruct (mutations_without_profile_aux w amount Hu) as (E & _).
      unfold exec. by rewrite E.
  - destruct (App.user (ui w)) as [u|] eqn:Hu.
    + assert (E : App.updatePoints amount w
                  = updateDoc (uid u) [FPoints (points u + amount)] w).
      { unfold App.updatePoints, bind at 1, gets. by rewrite Hu. }
      rewrite (exec_eq _ _ _ _ E). unfold App.W.
      destruct (updateDoc_effect w (uid u) [FPoints (points u + amount)])
        as (_ & _ & Hl & _).
      by rewrite Hl.
    + destruct (mutations_without_profile_aux w amount Hu) as (_ & E & _).
      unfold exec. by rewrite E.
  - destruct (App.user (ui w)) as [u|] eqn:Hu.
    + destruct (updateDoc_effect w (uid u) [FIsGhostMode (negb (isGhostMode u))])
        as (_ & _ & Hl & _).
      unfold exec in *. unfold App.handleToggleGhost, bind at 1, gets.
      rewrite Hu. unfold bind.
      destruct (updateDoc (uid u) [FIsGhostMode (negb (isGhostMode u))] w)
        as [[[]|err] w1]; cbn in *; by rewrite Hl.
    + destruct (mutations_without_profile_aux w 0 Hu) as (_ & _ & E).
      unfold exec. by rewrite E.
  - unfold exec. by rewrite handleLogout_spec.
Qed.

(** Hence none of a whole run does. *)
Lemma run_keeps_listeners (es : list App.Event) w k :
  k ∈ listeners (cloud w) -> k ∈ listeners (cloud (App.run es w)).
Proof.
  revert w. induction es as [|e es IH]; intros w Hin; [exact Hin|].
  cbn. apply IH. by apply step_keeps_listeners.
Qed.

(** After a logout, a write by anybody to a document whose listener was
    attached before lands in the mirror. *)
Lemma write_after_logout_is_mirrored w k d :
  k ∈ listeners (cloud w) ->
  App.user (ui (App.run [App.Logout; App.RemoteWrite k d] w)) = Some d.
Proof.
  intros Hin. cbn [App.run fold_left App.step]. unfold exec.
  rewrite handleLogout_spec. cbn [snd]. unfold App.remoteWrite.
  rewrite deliver_spec. cbn [cloud ui onCloud setDocs listeners docs].
  rewrite (attached_existsb _ _ Hin), lookup_insert_eq. reflexivity.
Qed.

(** C4, as the code behaves.  Amira signs in, then logs out: the mirror
    is null and the session is gone, but the listener on her document is
    still attached; when her document is written afterwards, the mirror
    holds the written profile again. *)
Theorem logout_leaves_listener_attached :
  let w2 := App.run [App.AuthChanged (Some amiraSession); App.Logout] signedOut in
  let w3 := App.step w2 (App.RemoteWrite "u1" amiraCredited) in
  App.user (ui w2) = None
  /\ session (cloud w2) = None
  /\ listeners (cloud w2) = ["u1"]
  /\ App.user (ui w3) = Some amiraCredited.
Proof. repeat split; reflexivity. Qed.

(** C5, as stated, fails for two calls made one right after the other:
    the handler does not assign the mirror, so before the listener has
    run the second call reads the flag the first one read.  Signed in with
    ghost mode off, two such calls leave the stored flag on, not back at
    its original value, and show the same text twice. *)
Lemma toggleGhost_back_to_back :
  let w2 := exec App.handleToggleGhost (exec App.handleToggleGhost signedIn) in
  isGhostMode amira = false
  /\ isGhostMode <$> docs (cloud w2) !! uid amira = Some true
  /\ App.message <$> App.shown (ui w2)
       = [App.ghostOnMessage; App.ghostOnMessage]
  /\ ~ (isGhostMode <$> docs (cloud w2) !! uid amira
          = Some (isGhostMode amira)
        /\ exists t1 t2, App.shown (ui w2) = [t2; t1]
                         /\ App.message t1 <> App.message t2).
Proof.
  cbv zeta. split; [reflexivity|]. split; [reflexivity|].
  split; [reflexivity|]. intros [H _]. discriminate H.
Qed.

(** C5, amended.  With the mirror in step with the store and its listener
    attached, [handleToggleGhost] writes the negation of the flag it
    reads; once the listener has mirrored that write, a second call
    writes the original flag back, so the document is what it was.  Each
    call shows the toast chosen from the flag it read before writing, and
    the texts of the two toasts differ. *)
Theorem toggleGhost_twice w u :
  App.user (ui w) = Some u ->
  docs (cloud w) !! uid u = Some u ->
  uid u ∈ listeners (cloud w) ->
  let w1 := exec App.handleToggleGhost w in
  let w2 := App.deliver (uid u) w1 in
  let w3 := exec App.handleToggleGhost w2 in
  writes (cloud w1) =
    WUpdate (uid u) [FIsGhostMode (negb (isGhostMode u))] :: writes (cloud w)
  /\ isGhostMode <$> docs (cloud w1) !! uid u = Some (negb (isGhostMode u))
  /\ docs (cloud w3) = docs (cloud w)
  /\ App.shown (ui w1) = ghostToast (isGhostMode u) :: App.shown (ui w)
  /\ App.shown (ui w3) =
       ghostToast (negb (isGhostMode u)) :: ghostToast (isGhostMode u)
         :: App.shown (ui w)
  /\ App.message (ghostToast (isGhostMode u))
       <> App.message (ghostToast (negb (isGhostMode u))).
Proof.
  intros Hu Hd Hin w1 w2 w3.
  assert (E1 : w1 =
    mkWorld (mkBackend
               (<[uid u := applyPatch [FIsGhostMode (negb (isGhostMode u))] u]>
                  (docs (cloud w)))
               (session (cloud w)) (listeners (cloud w))
               (WUpdate (uid u) [FIsGhostMode (negb (isGhostMode u))]
                  :: writes (cloud w)))
            (App.mkState (Some u) (App.isLoading (ui w))
               (Some (ghostToast (isGhostMode u)))
               (ghostToast (isGhostMode u) :: App.shown (ui w)))).
  { subst w1. unfold exec, App.handleToggleGhost, bind at 1, gets. rewrite Hu.
    unfold bind. rewrite (updateDoc_present w _ _ u Hd).
    unfold App.showToast, modify, onUI. cbn. by rewrite Hu. }
  set (u' := applyPatch [FIsGhostMode (negb (isGhostMode u))] u) in *.
  assert (E2 : w2 =
    mkWorld (cloud w1)
            (App.mkState (Some u') (App.isLoading (ui w))
               (Some (ghostToast (isGhostMode u)))
               (ghostToast (isGhostMode u) :: App.shown (ui w)))).
  { subst w2. rewrite (deliver_attached w1 (uid u) u').
    - by rewrite E1.
    - by rewrite E1.
    - rewrite E1. cbn. by rewrite lookup_insert_eq. }
  assert (Hd2 : docs (cloud w2) !! uid u' = Some u').
  { rewrite E2, E1. cbn. by rewrite lookup_insert_eq. }
  assert (E3 : w3 =
    mkWorld (mkBackend
               (<[uid u' := applyPatch [FIsGhostMode (negb (isGhostMode u'))] u']>
                  (docs (cloud w2)))
               (session (cloud w2)) (listeners (cloud w2))
               (WUpdate (uid u') [FIsGhostMode (negb (isGhostMode u'))]
                  :: writes (cloud w2)))
            (App.mkState (Some u') (App.isLoading (ui w2))
               (Some (ghostToast (isGhostMode u')))
               (ghostToast (isGhostMode u') :: App.shown (ui w2)))).
  { subst w3. unfold exec, App.handleToggleGhost, bind at 1, gets.
    assert (Hu2 : App.user (ui w2) = Some u') by (by rewrite E2).
    rewrite Hu2. unfold bind. rewrite (updateDoc_present w2 _ _ u' Hd2).
    unfold App.showToast, modify, onUI. cbn. by rewrite Hu2. }
  assert (Hback : applyPatch [FIsGhostMode (negb (isGhostMode u'))] u' = u).
  { subst u'. destruct u; cbn. by rewrite negb_involutive. }
  split; [by rewrite E1|].
  split; [rewrite E1; cbn; by rewrite lookup_insert_eq|].
  split.
  { rewrite E3, Hback, E2, E1. cbn [docs cloud].
    rewrite insert_insert_eq. by apply insert_id. }
  split; [by rewrite E1|].
  split; [rewrite E3, E2; reflexivity|].
  destruct (isGhostMode u); cbn; discriminate.
Qed.

Lemma toggleGhost_twice_witness :
  App.user (ui signedIn) = Some amira
  /\ docs (cloud signedIn) !! uid amira = Some amira
  /\ uid amira ∈ listeners (cloud signedIn)
  /\ let w1 := exec App.handleToggleGhost signedIn in
     let w2 := App.deliver (uid amira) w1 in
     let w3 := exec App.handleToggleGhost w2 in
     writes (cloud w1) =
       WUpdate (uid amira) [FIsGhostMode (negb (isGhostMode amira))]
         :: writes (cloud signedIn)
     /\ isGhostMode <$> docs (cloud w1) !! uid amira
          = Some (negb (isGhostMode amira))
     /\ docs (cloud w3) = docs (cloud signedIn)
     /\ App.shown (ui w1) = ghostToast (isGhostMode amira) :: App.shown (ui signedIn)
     /\ App.shown (ui w3) =
          ghostToast (negb (isGhostMode amira)) :: ghostToast (isGhostMode amira)
            :: App.shown (ui signedIn)
     /\ App.message (ghostToast (isGhostMode amira))
          <> App.message (ghostToast (negb (isGhostMode amira))).
Proof.
  assert (Hu : App.user (ui signedIn) = Some amira) by reflexivity.
  assert (Hd : docs (cloud signedIn) !! uid amira = Some amira) by reflexivity.
  assert (Hin : uid amira ∈ listeners (cloud signedIn)).
  { apply list_elem_of_In. cbn. by left. }
  split; [exact Hu|]. split; [exact Hd|]. split; [exact Hin|].
  exact (toggleGhost_twice signedIn amira Hu Hd Hin).
Defined.

End Listener.

(* ------------------------------------------------------------------ *)
(** ** The sign-in handlers *)

Section Gate.
Implicit Types (w : AuthGate.W) (fu : FirebaseUser) (now : Z)
  (tg : AuthGate.TgUser) (p d : User) (e : Err).

Lemma handleGoogleLogin_ok w fu now :
  AuthGate.handleGoogleLogin (Ok fu) now w =
    (Ok tt,
     mkWorld (provisioned (fu_uid fu) (AuthGate.googleUser fu now) fu (cloud w))
             (settled (ui w) "")).
Proof.
  unfold_gate. unfold_client. unfold_async. unfold provisioned. cbn.
  destruct (docs (cloud w) !! fu_uid fu); reflexivity.
Qed.

Lemma onTelegramAuth_ok w fu now tg :
  AuthGate.onTelegramAuth (Ok fu) now tg w =
    (Ok tt,
     mkWorld (provisioned (fu_uid fu) (AuthGate.telegramUser fu tg now) fu (cloud w))
             (settled (ui w) "")).
Proof.
  unfold_gate. unfold_client. unfold_async. unfold provisioned. cbn.
  destruct (docs (cloud w) !! fu_uid fu); reflexivity.
Qed.

Lemma provisioned_present k d fu (b : Backend) p :
  docs b !! k = Some p ->
  docs (provisioned k d fu b) = docs b
  /\ writes (provisioned k d fu b) = writes b.
Proof. intros Hp. unfold provisioned. by rewrite Hp. Qed.

Lemma provisioned_lookup k d fu (b : Backend) :
  docs (provisioned k d fu b) !! k
    = Some (match docs b !! k with Some p => p | None => d end).
Proof.
  unfold provisioned. destruct (docs b !! k) as [p|] eqn:Hp; cbn.
  - exact Hp.
  - by rewrite lookup_insert_eq.
Qed.

(** C2. For a uid that already has a document, the create-if-absent step
    of the Google handler and of the Telegram handler leaves the whole
    collection as it is and issues no write, whatever the attributes that
    come with the sign-in; and running a handler twice for one uid, with
    any attributes and at any times, gives the same document after the
    second run as after the first. *)
Theorem bootstrap_never_overwrites w fu fu' now now' tg tg' :
  fu_uid fu' = fu_uid fu ->
  (forall p, docs (cloud w) !! fu_uid fu = Some p ->
     let wg := exec (AuthGate.handleGoogleLogin (Ok fu) now) w in
     let wt := exec (AuthGate.onTelegramAuth (Ok fu) now tg) w in
     docs (cloud wg) = docs (cloud w) /\ writes (cloud wg) = writes (cloud w)
     /\ docs (cloud wt) = docs (cloud w) /\ writes (cloud wt) = writes (cloud w))
  /\ (let w1 := exec (AuthGate.handleGoogleLogin (Ok fu) now) w in
      let w2 := exec (AuthGate.handleGoogleLogin (Ok fu') now') w1 in
      is_Some (docs (cloud w1) !! fu_uid fu)
      /\ docs (cloud w2) = docs (cloud w1))
  /\ (let w1 := exec (AuthGate.onTelegramAuth (Ok fu) now tg) w in
      let w2 := exec (AuthGate.onTelegramAuth (Ok fu') now' tg') w1 in
      is_Some (docs (cloud w1) !! fu_uid fu)
      /\ docs (cloud w2) = docs (cloud w1)).
Proof.
  intros Huid. split; [|split].
  - intros p Hp wg wt. subst wg wt. unfold exec.
    rewrite handleGoogleLogin_ok, onTelegramAuth_ok. cbn [snd cloud].
    destruct (provisioned_present (fu_uid fu) (AuthGate.googleUser fu now)
                fu (cloud w) p Hp) as [-> ->].
    destruct (provisioned_present (fu_uid fu) (AuthGate.telegramUser fu tg now)
                fu (cloud w) p Hp) as [-> ->].
    auto.
  - intros w1 w2. subst w1 w2. unfold exec.
    rewrite !handleGoogleLogin_ok. cbn [snd cloud]. rewrite Huid.
    pose proof (provisioned_lookup (fu_uid fu) (AuthGate.googleUser fu now)
                  fu (cloud w)) as Hl.
    split; [by eexists|].
    by destruct (provisioned_present _ (AuthGate.googleUser fu' now') fu' _ _ Hl).
  - intros w1 w2. subst w1 w2. unfold exec.
    rewrite !onTelegramAuth_ok. cbn [snd cloud]. rewrite Huid.
    pose proof (provisioned_lookup (fu_uid fu) (AuthGate.telegramUser fu tg now)
                  fu (cloud w)) as Hl.
    split; [by eexists|].
    by destruct (provisioned_present _ (AuthGate.telegramUser fu' tg' now') fu' _ _ Hl).
Qed.

(** A returning user whose Google account now carries another name. *)
Lemma bootstrap_never_overwrites_witness :
  fu_uid renamedSession = fu_uid amiraSession
  /\ docs (cloud signInForm) !! fu_uid amiraSession = Some amira
  /\ (let wg := exec (AuthGate.handleGoogleLogin (Ok amiraSession) 5) signInForm in
      let wt := exec (AuthGate.onTelegramAuth (Ok amiraSession) 5 omar) signInForm in
      docs (cloud wg) = docs (cloud signInForm)
      /\ writes (cloud wg) = writes (cloud signInForm)
      /\ docs (cloud wt) = docs (cloud signInForm)
      /\ writes (cloud wt) = writes (cloud signInForm))
  /\ (let w1 := exec (AuthGate.handleGoogleLogin (Ok amiraSession) 5) signInForm in
      let w2 := exec (AuthGate.handleGoogleLogin (Ok renamedSession) 9) w1 in
      is_Some (docs (cloud w1) !! fu_uid amiraSession)
      /\ docs (cloud w2) = docs (cloud w1))
  /\ (let w1 := exec (AuthGate.onTelegramAuth (Ok amiraSession) 5 omar) signInForm in
      let w2 := exec (AuthGate.onTelegramAuth (Ok renamedSession) 9 omar) w1 in
      is_Some (docs (cloud w1) !! fu_uid amiraSession)
      /\ docs (cloud w2) = docs (cloud w1)).
Proof.
  assert (Huid : fu_uid renamedSession = fu_uid amiraSession) by reflexivity.
  assert (Hp : docs (cloud signInForm) !! fu_uid amiraSession = Some amira)
    by reflexivity.
  destruct (bootstrap_never_overwrites signInForm amiraSession renamedSession
              5 9 omar omar Huid) as (Hkeep & Hg & Ht).
  split; [exact Huid|]. split; [exact Hp|].
  split; [exact (Hkeep amira Hp)|]. split; [exact Hg|exact Ht].
Defined.

(** [handleSubmit] in sign-up mode, the provider having created the
    account. *)
Lemma handleSubmit_signup_ok w fu now :
  AuthGate.loading (ui w) = false ->
  AuthGate.isLogin (ui w) = false ->
  AuthGate.handleSubmit (Ok fu) now w =
    (Ok tt,
     mkWorld (mkBackend
                (<[fu_uid fu := AuthGate.passwordUser fu (ui w) now]>
                   (docs (cloud w)))
                (Some fu) (listeners (cloud w))
                (WSet (fu_uid fu) (AuthGate.passwordUser fu (ui w) now)
                   :: writes (cloud w)))
             (settled (ui w) "")).
Proof.
  intros Hl Hm. unfold AuthGate.handleSubmit, bind at 1, gets.
  rewrite Hl, Hm. reflexivity.
Qed.

(** C6. Sign-up with email a@x.com, password p and name Amira, the
    provider creating the account [fu] at time [now], stores under
    [fu]'s uid the profile with that uid, name "Amira", email "a@x.com",
    points 1000, xp 0, level 1, role "member", both flags false, and
    joinedAt [now]. *)
Theorem signup_creates_default_profile w fu now :
  AuthGate.loading (ui w) = false ->
  AuthGate.isLogin (ui w) = false ->
  AuthGate.email (ui w) = "a@x.com" ->
  AuthGate.password (ui w) = "p" ->
  AuthGate.name (ui w) = "Amira" ->
  docs (cloud (exec (AuthGate.handleSubmit (Ok fu) now) w)) !! fu_uid fu =
    Some (mkUser (fu_uid fu) "Amira" "a@x.com" 1000 0 1 "member" false false now).
Proof.
  intros Hl Hm He _ Hn. unfold exec.
  rewrite (handleSubmit_signup_ok w fu now Hl Hm). cbn [snd cloud docs].
  rewrite lookup_insert_eq. unfold AuthGate.passwordUser.
  by rewrite He, Hn.
Qed.

Lemma signup_creates_default_profile_witness :
  AuthGate.loading (ui signUpForm) = false
  /\ AuthGate.isLogin (ui signUpForm) = false
  /\ AuthGate.email (ui signUpForm) = "a@x.com"
  /\ AuthGate.password (ui signUpForm) = "p"
  /\ AuthGate.name (ui signUpForm) = "Amira"
  /\ docs (cloud (exec (AuthGate.handleSubmit (Ok amiraSession) 1700000000000)
                       signUpForm)) !! fu_uid amiraSession =
       Some (mkUser (fu_uid amiraSession) "Amira" "a@x.com" 1000 0 1 "member"
                    false false 1700000000000).
Proof.
  repeat (split; [reflexivity|]).
  exact (signup_creates_default_profile signUpForm amiraSession 1700000000000
           eq_refl eq_refl eq_refl eq_refl eq_refl).
Defined.

Lemma append_empty_r (s : string) : s +:+ "" = s.
Proof.
  induction s as [|a s IH]; [reflexivity|].
  change (String a (s +:+ "") = String a s). by rewrite IH.
Qed.

(** C7. On first contact (no document under the anonymous session's uid)
    the Telegram handler stores a profile with points 1000, xp 0 and
    level 1 whose name is first_name, followed by a space and last_name
    when a last_name is given, and whose email is "@" + username when a
    username is given and "tg_" + id, in decimal, otherwise (the id being
    a safe integer); an empty last_name or username counts as not given.
    The payload
    [{id: 55, first_name: "Omar", username: "omarx"}] gives name "Omar" and
    email "@omarx". *)
Theorem telegram_first_sign_in w fu now tg :
  docs (cloud w) !! fu_uid fu = None ->
  exists d,
    docs (cloud (exec (AuthGate.onTelegramAuth (Ok fu) now tg) w)) !! fu_uid fu
      = Some d
    /\ points d = 1000 /\ xp d = 0 /\ level d = 1
    /\ (forall l, AuthGate.last_name tg = Some l -> l <> "" ->
          name d = AuthGate.first_name tg +:+ " " +:+ l)
    /\ (AuthGate.last_name tg = None \/ AuthGate.last_name tg = Some "" ->
          name d = AuthGate.first_name tg)
    /\ (forall h, AuthGate.username tg = Some h -> h <> "" ->
          email d = "@" +:+ h)
    /\ (AuthGate.username tg = None \/ AuthGate.username tg = Some "" ->
        safeInteger (AuthGate.id tg) ->
          email d = "tg_" +:+ pretty (AuthGate.id tg))
    /\ (tg = omar -> name d = "Omar" /\ email d = "@omarx").
Proof.
  intros Hnone. exists (AuthGate.telegramUser fu tg now).
  unfold exec. rewrite onTelegramAuth_ok. cbn [snd cloud].
  split.
  { rewrite provisioned_lookup. by rewrite Hnone. }
  unfold AuthGate.telegramUser. cbn [points xp level name email].
  do 3 (split; [reflexivity|]).
  split; [|split; [|split; [|split]]].
  - intros l -> Hl. cbn. by apply String.eqb_neq in Hl as ->.
  - intros [-> | ->]; cbn; apply append_empty_r.
  - intros h -> Hh. cbn. by apply String.eqb_neq in Hh as ->.
  - intros [-> | ->] _; reflexivity.
  - intros ->. split; reflexivity.
Qed.

Lemma telegram_first_sign_in_witness :
  docs (cloud signUpForm) !! fu_uid anonymousSession = None
  /\ exists d,
       docs (cloud (exec (AuthGate.onTelegramAuth (Ok anonymousSession) 7 omar)
                         signUpForm)) !! fu_uid anonymousSession = Some d
       /\ points d = 1000 /\ xp d = 0 /\ level d = 1
       /\ name d = "Omar" /\ email d = "@omarx".
Proof.
  assert (Hnone : docs (cloud signUpForm) !! fu_uid anonymousSession = None)
    by reflexivity.
  split; [exact Hnone|].
  destruct (telegram_first_sign_in signUpForm anonymousSession 7 omar Hnone)
    as (d & Hd & Hp & Hx & Hl & _ & _ & _ & _ & Homar).
  exists d. destruct (Homar eq_refl) as [Hn He].
  repeat (split; [assumption|]). assumption.
Defined.

(** [handleSubmit] in sign-in mode, the provider refusing with [e]. *)
Lemma handleSubmit_signin_rejected w e now :
  AuthGate.loading (ui w) = false ->
  AuthGate.isLogin (ui w) = true ->
  AuthGate.handleSubmit (Rejected e) now w =
    (Ok tt,
     mkWorld (cloud w)
       (settled (ui w)
          (if String.eqb (code e) "auth/user-not-found"
           then AuthGate.userNotFound else AuthGate.badCredentials))).
Proof.
  intros Hl Hm. unfold AuthGate.handleSubmit, bind at 1, gets.
  rewrite Hl, Hm. destruct w as [b s]. reflexivity.
Qed.

(** C8. When a password sign-in is refused, the form shows
    [badCredentials] for every error code other than
    [auth/user-not-found], and the different message [userNotFound] for
    that one code; the store is not touched and the form stops loading. *)
Theorem signin_failure_messages w e now :
  AuthGate.loading (ui w) = false ->
  AuthGate.isLogin (ui w) = true ->
  let w' := exec (AuthGate.handleSubmit (Rejected e) now) w in
  (code e <> "auth/user-not-found" ->
     AuthGate.error (ui w') = AuthGate.badCredentials)
  /\ (code e = "auth/user-not-found" ->
        AuthGate.error (ui w') = AuthGate.userNotFound)
  /\ AuthGate.userNotFound <> AuthGate.badCredentials
  /\ AuthGate.loading (ui w') = false
  /\ cloud w' = cloud w.
Proof.
  intros Hl Hm w'. subst w'. unfold exec.
  rewrite (handleSubmit_signin_rejected w e now Hl Hm). cbn [snd ui cloud].
  unfold settled. cbn [AuthGate.error AuthGate.loading].
  split; [|split; [|split; [|split]]].
  - intros Hne. by apply String.eqb_neq in Hne as ->.
  - intros Heq. by apply String.eqb_eq in Heq as ->.
  - discriminate.
  - reflexivity.
  - reflexivity.
Qed.

Lemma signin_failure_messages_witness :
  AuthGate.loading (ui signInForm) = false
  /\ AuthGate.isLogin (ui signInForm) = true
  /\ let w' := exec (AuthGate.handleSubmit
                       (Rejected (mkErr "auth/wrong-password")) 3) signInForm in
     AuthGate.error (ui w') = AuthGate.badCredentials
     /\ AuthGate.loading (ui w') = false
     /\ cloud w' = cloud signInForm.
Proof.
  split; [reflexivity|]. split; [reflexivity|].
  destruct (signin_failure_messages signInForm (mkErr "auth/wrong-password") 3
              eq_refl eq_refl) as (Hother & _ & _ & Hld & Hc).
  split; [|split; assumption].
  apply Hother. discriminate.
Defined.

End Gate.

(* ------------------------------------------------------------------ *)
(** ** Experience and points over several calls *)

Section Progress.
Implicit Types (w : App.W) (u d : User) (amount : Z) (k : string).

Lemma spentBelow_next (l : Z) :
  1 <= l -> spentBelow (l + 1) = spentBelow l + l * 1000.
Proof.
  intros Hl. unfold spentBelow.
  replace (Z.to_nat (l + 1 - 1)) with (S (Z.to_nat (l - 1))) by lia.
  cbn [thresholdsUpTo]. lia.
Qed.

(** [addXP] with a profile in the mirror, in both branches at once. *)
Lemma addXP_run w u amount :
  App.user (ui w) = Some u ->
  let up := xp u + amount >=? level u * 1000 in
  let a := if up then xp u + amount - level u * 1000 else xp u + amount in
  let b := if up then level u + 1 else level u in
  let w' := exec (App.addXP amount) w in
  writes (cloud w') = WUpdate (uid u) [FXp a; FLevel b] :: writes (cloud w)
  /\ docs (cloud w') =
       match docs (cloud w) !! uid u with
       | Some d => <[uid u := withProgress a b d]> (docs (cloud w))
       | None => docs (cloud w)
       end
  /\ listeners (cloud w') = listeners (cloud w)
  /\ App.user (ui w') = Some u
  /\ App.shown (ui w') =
       if up then levelUpToast b :: App.shown (ui w) else App.shown (ui w).
Proof.
  intros Hu up a b w'. subst w'.
  destruct (Z_lt_le_dec (xp u + amount) (level u * 1000)) as [Hlt|Hge].
  - assert (E : up = false).
    { subst up. destruct (xp u + amount >=? level u * 1000) eqn:E; [|reflexivity].
      apply Z.geb_le in E. lia. }
    subst a b. rewrite E.
    rewrite (exec_eq _ _ _ _ (addXP_below w u amount Hu Hlt)). unfold App.W.
    destruct (updateDoc_effect w (uid u) [FXp (xp u + amount); FLevel (level u)])
      as (Hw & Hui & Hl & Hdocs).
    rewrite Hw, Hui, Hl, Hdocs. auto.
  - assert (E : up = true) by (subst up; apply Z.geb_le; lia).
    subst a b. rewrite E.
    rewrite (exec_eq _ _ _ _ (addXP_reached w u amount Hu Hge)). unfold App.W.
    destruct (updateDoc_effect
                (exec (App.showToast (App.levelUpMessage (level u + 1)) "#ffd700") w)
                (uid u)
                [FXp (xp u + amount - level u * 1000); FLevel (level u + 1)])
      as (Hw & Hui & Hl & Hdocs).
    unfold App.W in *. rewrite Hw, Hui, Hl, Hdocs. cbn. auto.
Qed.

(** X1. Levelling up converts experience, it does not lose any: counting
    the thresholds of the levels already passed, the profile [addXP]
    writes holds exactly [amount] more experience than the mirror did,
    and its level is the old one or the next (all numbers being safe
    integers). *)
Theorem addXP_conserves_experience w u amount :
  App.user (ui w) = Some u ->
  safeLevelUp u amount ->
  1 <= level u ->
  exists a b,
    writes (cloud (exec (App.addXP amount) w)) =
      WUpdate (uid u) [FXp a; FLevel b] :: writes (cloud w)
    /\ a + spentBelow b = xp u + spentBelow (level u) + amount
    /\ level u <= b <= level u + 1.
Proof.
  intros Hu _ Hl. destruct (addXP_run w u amount Hu) as (Hw & _).
  eexists _, _. split; [exact Hw|].
  destruct (xp u + amount >=? level u * 1000).
  - rewrite (spentBelow_next _ Hl). lia.
  - lia.
Qed.

Lemma addXP_conserves_experience_witness :
  App.user (ui signedIn) = Some amira
  /\ safeLevelUp amira 1200
  /\ 1 <= level amira
  /\ exists a b,
       writes (cloud (exec (App.addXP 1200) signedIn)) =
         WUpdate (uid amira) [FXp a; FLevel b] :: writes (cloud signedIn)
       /\ a + spentBelow b = xp amira + spentBelow (level amira) + 1200
       /\ level amira <= b <= level amira + 1.
Proof.
  assert (Hu : App.user (ui signedIn) = Some amira) by reflexivity.
  assert (Hsafe : safeLevelUp amira 1200)
    by (unfold safeLevelUp, safeThreshold, safeInteger; cbn; lia).
  assert (Hl : 1 <= level amira) by (cbn; lia).
  split; [exact Hu|]. split; [exact Hsafe|]. split; [exact Hl|].
  exact (addXP_conserves_experience signedIn amira 1200 Hu Hsafe Hl).
Defined.

(** X2. A profile whose xp lies below the threshold of its level stays
    that way: for a gain of at most the next level's threshold, the xp
    [addXP] writes is again non-negative and below the threshold of the
    level it writes (all numbers being safe integers). *)
Theorem addXP_keeps_xp_below_threshold w u amount :
  App.user (ui w) = Some u ->
  safeLevelUp u amount ->
  1 <= level u ->
  0 <= xp u < level u * 1000 ->
  0 <= amount <= (level u + 1) * 1000 ->
  exists a b,
    writes (cloud (exec (App.addXP amount) w)) =
      WUpdate (uid u) [FXp a; FLevel b] :: writes (cloud w)
    /\ 0 <= a < b * 1000.
Proof.
  intros Hu _ Hl Hx Ha. destruct (addXP_run w u amount Hu) as (Hw & _).
  eexists _, _. split; [exact Hw|].
  destruct (xp u + amount >=? level u * 1000) eqn:E.
  - apply Z.geb_le in E. lia.
  - assert (xp u + amount < level u * 1000); [|lia].
    destruct (Z_lt_le_dec (xp u + amount) (level u * 1000)) as [|Hge]; [done|].
    apply Z.geb_le in Hge. congruence.
Qed.

Lemma addXP_keeps_xp_below_threshold_witness :
  App.user (ui signedIn) = Some amira
  /\ safeLevelUp amira 2000
  /\ 1 <= level amira
  /\ 0 <= xp amira < level amira * 1000
  /\ 0 <= 2000 <= (level amira + 1) * 1000
  /\ exists a b,
       writes (cloud (exec (App.addXP 2000) signedIn)) =
         WUpdate (uid amira) [FXp a; FLevel b] :: writes (cloud signedIn)
       /\ 0 <= a < b * 1000.
Proof.
  assert (Hu : App.user (ui signedIn) = Some amira) by reflexivity.
  assert (Hl : 1 <= level amira) by (cbn; lia).
  assert (Hx : 0 <= xp amira < level amira * 1000) by (cbn; lia).
  assert (Ha : 0 <= 2000 <= (level amira + 1) * 1000) by (cbn; lia).
  assert (Hsafe : safeLevelUp amira 2000)
    by (unfold safeLevelUp, safeThreshold, safeInteger; cbn; lia).
  split; [exact Hu|]. split; [exact Hsafe|]. split; [exact Hl|].
  split; [exact Hx|]. split; [exact Ha|].
  exact (addXP_keeps_xp_below_threshold signedIn amira 2000 Hu Hsafe Hl Hx Ha).
Defined.

(** [updatePoints] with a profile in the mirror. *)
Lemma updatePoints_run w u amount :
  App.user (ui w) = Some u ->
  let w' := exec (App.updatePoints amount) w in
  writes (cloud w') =
    WUpdate (uid u) [FPoints (points u + amount)] :: writes (cloud w)
  /\ docs (cloud w') =
       match docs (cloud w) !! uid u with
       | Some d =>
           <[uid u := applyPatch [FPoints (points u + amount)] d]> (docs (cloud w))
       | None => docs (cloud w)
       end
  /\ listeners (cloud w') = listeners (cloud w)
  /\ ui w' = ui w.
Proof.
  intros Hu w'. subst w'.
  assert (E : App.updatePoints amount w
              = updateDoc (uid u) [FPoints (points u + amount)] w).
  { unfold App.updatePoints, bind at 1, gets. by rewrite Hu. }
  rewrite (exec_eq _ _ _ _ E). unfold App.W.
  destruct (updateDoc_effect w (uid u) [FPoints (points u + amount)])
    as (Hw & Hui & Hl & Hdocs).
  rewrite Hw, Hui, Hl, Hdocs. auto.
Qed.

(** X3. Two [updatePoints] calls add up when the snapshot listener runs
    between them: starting from a mirror in step with the store, the
    stored points end at [points + a + b] (the points, the two amounts
    and the two sums being safe integers). *)
Theorem updatePoints_add_up w u (a b : Z) :
  safeInteger (points u) /\ safeInteger a /\ safeInteger b
  /\ safeInteger (points u + a) /\ safeInteger (points u + a + b) ->
  App.user (ui w) = Some u ->
  docs (cloud w) !! uid u = Some u ->
  uid u ∈ listeners (cloud w) ->
  let w1 := exec (App.updatePoints a) w in
  let w2 := App.deliver (uid u) w1 in
  let w3 := exec (App.updatePoints b) w2 in
  points <$> docs (cloud w3) !! uid u = Some (points u + a + b).
Proof.
  intros _ Hu Hd Hin w1 w2 w3.
  destruct (updatePoints_run w u a Hu) as (_ & Hdocs1 & Hl1 & Hui1).
  fold w1 in Hdocs1, Hl1, Hui1. rewrite Hd in Hdocs1.
  set (u1 := applyPatch [FPoints (points u + a)] u) in *.
  assert (Hd1 : docs (cloud w1) !! uid u = Some u1)
    by (rewrite Hdocs1; apply lookup_insert_eq).
  assert (Hin1 : uid u ∈ listeners (cloud w1)) by (by rewrite Hl1).
  assert (E2 : w2 = mkWorld (cloud w1)
                      (App.mkState (Some u1) (App.isLoading (ui w1))
                         (App.toast (ui w1)) (App.shown (ui w1))))
    by (exact (deliver_attached w1 (uid u) u1 Hin1 Hd1)).
  assert (Hu2 : App.user (ui w2) = Some u1) by (by rewrite E2).
  destruct (updatePoints_run w2 u1 b Hu2) as (_ & Hdocs3 & _).
  fold w3 in Hdocs3.
  assert (Hd2 : docs (cloud w2) !! uid u1 = Some u1) by (by rewrite E2).
  rewrite Hd2 in Hdocs3. rewrite Hdocs3.
  change (uid u1) with (uid u). rewrite lookup_insert_eq. reflexivity.
Qed.

Lemma updatePoints_add_up_witness :
  (safeInteger (points amira) /\ safeInteger 50 /\ safeInteger 25
   /\ safeInteger (points amira + 50) /\ safeInteger (points amira + 50 + 25))
  /\ App.user (ui signedIn) = Some amira
  /\ docs (cloud signedIn) !! uid amira = Some amira
  /\ uid amira ∈ listeners (cloud signedIn)
  /\ let w1 := exec (App.updatePoints 50) signedIn in
     let w2 := App.deliver (uid amira) w1 in
     let w3 := exec (App.updatePoints 25) w2 in
     points <$> docs (cloud w3) !! uid amira = Some (points amira + 50 + 25).
Proof.
  assert (Hu : App.user (ui signedIn) = Some amira) by reflexivity.
  assert (Hd : docs (cloud signedIn) !! uid amira = Some amira) by reflexivity.
  assert (Hin : uid amira ∈ listeners (cloud signedIn)).
  { apply list_elem_of_In. cbn. by left. }
  assert (Hsafe : safeInteger (points amira) /\ safeInteger 50 /\ safeInteger 25
                  /\ safeInteger (points amira + 50)
                  /\ safeInteger (points amira + 50 + 25))
    by (unfold safeInteger; cbn; lia).
  split; [exact Hsafe|].
  split; [exact Hu|]. split; [exact Hd|]. split; [exact Hin|].
  exact (updatePoints_add_up signedIn amira 50 25 Hsafe Hu Hd Hin).
Defined.

(** X4. Two [updatePoints] calls made before the listener has run do not
    add up: the second is computed from the same mirror as the first, so
    the stored points end at [points + b] and the first gain is gone
    (the points, the two amounts and the two sums being safe
    integers). *)
Theorem updatePoints_stale_mirror w u d (a b : Z) :
  safeInteger (points u) /\ safeInteger a /\ safeInteger b
  /\ safeInteger (points u + a) /\ safeInteger (points u + b) ->
  App.user (ui w) = Some u ->
  docs (cloud w) !! uid u = Some d ->
  let w2 := exec (App.updatePoints b) (exec (App.updatePoints a) w) in
  points <$> docs (cloud w2) !! uid u = Some (points u + b)
  /\ writes (cloud w2) =
       WUpdate (uid u) [FPoints (points u + b)]
         :: WUpdate (uid u) [FPoints (points u + a)] :: writes (cloud w).
Proof.
  intros _ Hu Hd w2.
  destruct (updatePoints_run w u a Hu) as (Hw1 & Hdocs1 & _ & Hui1).
  set (w1 := exec (App.updatePoints a) w) in *.
  assert (Hu1 : App.user (ui w1) = Some u) by (by rewrite Hui1).
  destruct (updatePoints_run w1 u b Hu1) as (Hw2 & Hdocs2 & _).
  fold w2 in Hw2, Hdocs2. rewrite Hd in Hdocs1.
  rewrite Hdocs1, lookup_insert_eq in Hdocs2.
  split.
  - rewrite Hdocs2, lookup_insert_eq. reflexivity.
  - by rewrite Hw2, Hw1.
Qed.

Lemma updatePoints_stale_mirror_witness :
  (safeInteger (points amira) /\ safeInteger 50 /\ safeInteger 25
   /\ safeInteger (points amira + 50) /\ safeInteger (points amira + 25))
  /\ App.user (ui signedIn) = Some amira
  /\ docs (cloud signedIn) !! uid amira = Some amira
  /\ let w2 := exec (App.updatePoints 25) (exec (App.updatePoints 50) signedIn) in
     points <$> docs (cloud w2) !! uid amira = Some (points amira + 25)
     /\ writes (cloud w2) =
          WUpdate (uid amira) [FPoints (points amira + 25)]
            :: WUpdate (uid amira) [FPoints (points amira + 50)]
            :: writes (cloud signedIn).
Proof.
  assert (Hu : App.user (ui signedIn) = Some amira) by reflexivity.
  assert (Hd : docs (cloud signedIn) !! uid amira = Some amira) by reflexivity.
  assert (Hsafe : safeInteger (points amira) /\ safeInteger 50 /\ safeInteger 25
                  /\ safeInteger (points amira + 50)
                  /\ safeInteger (points amira + 25))
    by (unfold safeInteger; cbn; lia).
  split; [exact Hsafe|].
  split; [exact Hu|]. split; [exact Hd|].
  exact (updatePoints_stale_mirror signedIn amira amira 50 25 Hsafe Hu Hd).
Defined.

End Progress.

(* ------------------------------------------------------------------ *)
(** ** Ghost mode, and writes that fail *)

Section Ghost.
Implicit Types (w : App.W) (u d : User) (amount : Z) (k : string).

Lemma uid_applyPatch (p : list FieldWrite) d : uid (applyPatch p d) = uid d.
Proof.
  unfold applyPatch. revert d.
  induction p as [|f p IH]; intros d; [reflexivity|].
  cbn [fold_left]. rewrite IH. by destruct f.
Qed.

(** [handleToggleGhost] when the document exists: the write, then the
    toast. *)
Lemma handleToggleGhost_present w u d :
  App.user (ui w) = Some u ->
  docs (cloud w) !! uid u = Some d ->
  App.handleToggleGhost w =
    (Ok tt,
     mkWorld (mkBackend
                (<[uid u := applyPatch [FIsGhostMode (negb (isGhostMode u))] d]>
                   (docs (cloud w)))
                (session (cloud w)) (listeners (cloud w))
                (WUpdate (uid u) [FIsGhostMode (negb (isGhostMode u))]
                   :: writes (cloud w)))
             (App.mkState (Some u) (App.isLoading (ui w))
                (Some (ghostToast (isGhostMode u)))
                (ghostToast (isGhostMode u) :: App.shown (ui w)))).
Proof.
  intros Hu Hd. unfold App.handleToggleGhost, bind at 1, gets. rewrite Hu.
  unfold bind. rewrite (updateDoc_present w _ _ d Hd).
  unfold App.showToast, modify, onUI. cbn. by rewrite Hu.
Qed.

(** [handleToggleGhost] when the document is missing: the rejection of
    [updateDoc] ends the handler. *)
Lemma handleToggleGhost_absent w u :
  App.user (ui w) = Some u ->
  docs (cloud w) !! uid u = None ->
  App.handleToggleGhost w =
    (Rejected (mkErr "not-found"),
     mkWorld (mkBackend (docs (cloud w)) (session (cloud w))
                (listeners (cloud w))
                (WUpdate (uid u) [FIsGhostMode (negb (isGhostMode u))]
                   :: writes (cloud w)))
             (ui w)).
Proof.
  intros Hu Hd. unfold App.handleToggleGhost, bind at 1, gets. rewrite Hu.
  unfold bind. by rewrite (updateDoc_absent w _ _ Hd).
Qed.

(** X5. [handleToggleGhost] names only [isGhostMode] in its write: in
    every document all other fields are as before, no document appears
    or disappears, and the mirror is not assigned. *)
Theorem toggleGhost_frame w :
  let w' := exec App.handleToggleGhost w in
  App.user (ui w') = App.user (ui w)
  /\ match App.user (ui w) with
     | Some u =>
         writes (cloud w') =
           WUpdate (uid u) [FIsGhostMode (negb (isGhostMode u))]
             :: writes (cloud w)
     | None => writes (cloud w') = writes (cloud w)
     end
  /\ forall k,
       nonGhostFields <$> docs (cloud w') !! k
         = nonGhostFields <$> docs (cloud w) !! k.
Proof.
  intros w'. subst w'. unfold exec.
  destruct (App.user (ui w)) as [u|] eqn:Hu.
  - destruct (docs (cloud w) !! uid u) as [d|] eqn:Hd.
    + rewrite (handleToggleGhost_present w u d Hu Hd). cbn.
      split; [done|]. split; [done|]. intros k.
      pose proof (frame_after_patch nonGhostFields (docs (cloud w)) (uid u)
                    [FIsGhostMode (negb (isGhostMode u))]) as Hf.
      rewrite Hd in Hf. by apply Hf.
    + rewrite (handleToggleGhost_absent w u Hu Hd). cbn. by rewrite Hu.
  - destruct (mutations_without_profile_aux w 0 Hu) as (_ & _ & E).
    rewrite E. cbn. by rewrite Hu.
Qed.

(** X6. When the document of the mirrored profile is missing, the write
    is refused with [not-found] and nothing is stored.
    [handleToggleGhost] shows its toast after the write, so it shows
    none; [addXP] shows the level-up toast before the write, so the
    toast is up although no level was stored. *)
Theorem toast_order_on_refused_write w u amount :
  App.user (ui w) = Some u ->
  docs (cloud w) !! uid u = None ->
  level u * 1000 <= xp u + amount ->
  (fst (App.handleToggleGhost w) = Rejected (mkErr "not-found")
   /\ App.shown (ui (exec App.handleToggleGhost w)) = App.shown (ui w)
   /\ docs (cloud (exec App.handleToggleGhost w)) = docs (cloud w))
  /\
  (fst (App.addXP amount w) = Rejected (mkErr "not-found")
   /\ App.shown (ui (exec (App.addXP amount) w))
        = levelUpToast (level u + 1) :: App.shown (ui w)
   /\ docs (cloud (exec (App.addXP amount) w)) = docs (cloud w)).
Proof.
  intros Hu Hd Hge. split.
  - unfold exec. rewrite (handleToggleGhost_absent w u Hu Hd). auto.
  - unfold exec. rewrite (addXP_reached w u amount Hu Hge).
    rewrite updateDoc_absent by exact Hd. auto.
Qed.

Lemma toast_order_on_refused_write_witness :
  App.user (ui orphaned) = Some amira
  /\ docs (cloud orphaned) !! uid amira = None
  /\ level amira * 1000 <= xp amira + 1200
  /\ (fst (App.handleToggleGhost orphaned) = Rejected (mkErr "not-found")
      /\ App.shown (ui (exec App.handleToggleGhost orphaned))
           = App.shown (ui orphaned)
      /\ docs (cloud (exec App.handleToggleGhost orphaned))
           = docs (cloud orphaned))
  /\ (fst (App.addXP 1200 orphaned) = Rejected (mkErr "not-found")
      /\ App.shown (ui (exec (App.addXP 1200) orphaned))
           = levelUpToast (level amira + 1) :: App.shown (ui orphaned)
      /\ docs (cloud (exec (App.addXP 1200) orphaned)) = docs (cloud orphaned)).
Proof.
  assert (Hu : App.user (ui orphaned) = Some amira) by reflexivity.
  assert (Hd : docs (cloud orphaned) !! uid amira = None) by reflexivity.
  assert (Hge : level amira * 1000 <= xp amira + 1200) by (cbn; lia).
  split; [exact Hu|]. split; [exact Hd|]. split; [exact Hge|].
  exact (toast_order_on_refused_write orphaned amira 1200 Hu Hd Hge).
Defined.

(** X7. The snapshot callback ignores a snapshot that does not exist:
    when a document is deleted, the document is gone from the collection
    but the interface state, mirror included, is what it was. *)
Theorem deleted_profile_stays_mirrored w k :
  ui (remoteDelete k w) = ui w
  /\ docs (cloud (remoteDelete k w)) !! k = None
  /\ listeners (cloud (remoteDelete k w)) = listeners (cloud w).
Proof.
  unfold remoteDelete. rewrite deliver_spec. cbn.
  rewrite lookup_delete_eq. cbn.
  split; [by destruct (existsb _ _)|]. split; reflexivity.
Qed.

End Ghost.

(* ------------------------------------------------------------------ *)
(** ** The auth observer over whole runs *)

Section Sessions.
Implicit Types (w : App.W) (u d : User) (k : string) (fu : FirebaseUser).

(** The auth observer, run to its end. *)
Lemma authObserver_run w (firebaseUser : option FirebaseUser) :
  App.authObserver firebaseUser w =
    (Ok tt,
     mkWorld
       (match firebaseUser with
        | Some fu =>
            match docs (cloud w) !! fu_uid fu with
            | Some _ => addListener (fu_uid fu) (cloud w)
            | None => cloud w
            end
        | None => cloud w
        end)
       (App.mkState
          (match firebaseUser with
           | Some fu => docs (cloud w) !! fu_uid fu
           | None => None
           end)
          false (App.toast (ui w)) (App.shown (ui w)))).
Proof.
  unfold App.authObserver, try_catch, bind, getDoc, gets, onSnapshot,
    App.setUser, App.setIsLoading, modify.
  destruct firebaseUser as [fu|]; [|reflexivity]. cbn.
  destruct (docs (cloud w) !! fu_uid fu); reflexivity.
Qed.

Lemma step_authChanged w (firebaseUser : option FirebaseUser) :
  App.step w (App.AuthChanged firebaseUser) =
    exec (App.authObserver firebaseUser) (onCloud (setSession firebaseUser) w).
Proof. reflexivity. Qed.

(** The observer whose read is refused: the [catch] swallows the error,
    so only [isLoading] changes. *)
Lemma authObserverOn_refused w e fu :
  authObserverOn (Some e) (Some fu) w =
    (Ok tt,
     mkWorld (cloud w)
       (App.mkState (App.user (ui w)) false (App.toast (ui w))
                    (App.shown (ui w)))).
Proof. reflexivity. Qed.

Lemma authObserverOn_answered w (firebaseUser : option FirebaseUser) :
  authObserverOn None firebaseUser w = App.authObserver firebaseUser w.
Proof. reflexivity. Qed.

(** X8. The auth observer never rejects, and once it has run the splash
    is gone.  Signed out, the application shows [AuthGate].  Signed in
    with the read answered, it shows the shell with the stored profile
    and attaches one listener when a document exists under that uid, and
    shows [AuthGate] with no listener when none exists.  Signed in with
    the read refused, the error is swallowed: the mirror and the
    listeners are what they were before. *)
Theorem observer_picks_screen w (failure : option Err)
    (firebaseUser : option FirebaseUser) :
  let w' := exec (authObserverOn failure firebaseUser) w in
  fst (authObserverOn failure firebaseUser w) = Ok tt
  /\ screen (ui w') <> Splash
  /\ (firebaseUser = None -> screen (ui w') = Gate)
  /\ (forall fu, firebaseUser = Some fu -> failure = None ->
        match docs (cloud w) !! fu_uid fu with
        | Some d =>
            screen (ui w') = Shell d
            /\ listeners (cloud w') = fu_uid fu :: listeners (cloud w)
        | None =>
            screen (ui w') = Gate
            /\ listeners (cloud w') = listeners (cloud w)
        end)
  /\ (forall fu e, firebaseUser = Some fu -> failure = Some e ->
        App.user (ui w') = App.user (ui w)
        /\ listeners (cloud w') = listeners (cloud w)).
Proof.
  intros w'. subst w'. unfold exec.
  destruct firebaseUser as [fu|].
  - destruct failure as [e|].
    + rewrite authObserverOn_refused. cbn [fst snd ui cloud].
      split; [done|]. split.
      { unfold screen. cbn. by destruct (App.user (ui w)). }
      split; [discriminate|]. split; [discriminate|]. by intros fu' e' _ _.
    + rewrite authObserverOn_answered, authObserver_run.
      cbn [fst snd ui cloud]. unfold screen. cbn [App.isLoading App.user].
      split; [done|]. split.
      { by destruct (docs (cloud w) !! fu_uid fu). }
      split; [discriminate|]. split; [|discriminate].
      intros fu' [= <-] _. by destruct (docs (cloud w) !! fu_uid fu).
  - assert (E : authObserverOn failure None w = App.authObserver None w)
      by (by destruct failure).
    rewrite E, authObserver_run. cbn [fst snd ui cloud]. unfold screen. cbn.
    split; [done|]. split; [done|]. split; [done|].
    split; intros; discriminate.
Qed.

(** X9. If the observer runs before the profile document exists (the
    handlers of [AuthGate] write it only after the sign-in call has
    resolved), it attaches no listener; the document written afterwards
    is never mirrored, and the signed-in user is left on [AuthGate]. *)
Theorem late_profile_is_not_mirrored w fu d :
  docs (cloud w) !! fu_uid fu = None ->
  fu_uid fu ∉ listeners (cloud w) ->
  let w' := App.run [App.AuthChanged (Some fu); App.RemoteWrite (fu_uid fu) d] w in
  App.user (ui w') = None
  /\ screen (ui w') = Gate
  /\ session (cloud w') = Some fu
  /\ docs (cloud w') !! fu_uid fu = Some d
  /\ listeners (cloud w') = listeners (cloud w).
Proof.
  intros Hd Hnot w'. subst w'. cbn [App.run fold_left].
  rewrite step_authChanged. unfold exec. rewrite authObserver_run.
  cbn [snd ui cloud onCloud setSession docs]. rewrite Hd.
  cbn [App.step]. unfold App.remoteWrite. rewrite deliver_spec.
  cbn [cloud ui onCloud setDocs docs listeners session].
  assert (E : existsb (fun l => String.eqb l (fu_uid fu)) (listeners (cloud w))
              = false).
  { destruct (existsb _ _) eqn:E; [|reflexivity].
    apply existsb_exists in E as (l & Hin & Heq).
    apply String.eqb_eq in Heq as ->. apply list_elem_of_In in Hin. done. }
  unfold setSession. cbn [listeners docs session].
  rewrite E, lookup_insert_eq. auto.
Qed.

Lemma late_profile_is_not_mirrored_witness :
  docs (cloud (App.mounted ∅)) !! fu_uid amiraSession = None
  /\ (fu_uid amiraSession ∉ listeners (cloud (App.mounted ∅)))
  /\ let w' := App.run [App.AuthChanged (Some amiraSession);
                        App.RemoteWrite (fu_uid amiraSession) amira]
                       (App.mounted ∅) in
     App.user (ui w') = None
     /\ screen (ui w') = Gate
     /\ session (cloud w') = Some amiraSession
     /\ docs (cloud w') !! fu_uid amiraSession = Some amira
     /\ listeners (cloud w') = listeners (cloud (App.mounted ∅)).
Proof.
  assert (Hd : docs (cloud (App.mounted ∅)) !! fu_uid amiraSession = None)
    by reflexivity.
  assert (Hn : fu_uid amiraSession ∉ listeners (cloud (App.mounted ∅)))
    by (cbn; apply not_elem_of_nil).
  split; [exact Hd|]. split; [exact Hn|].
  exact (late_profile_is_not_mirrored (App.mounted ∅) amiraSession amira Hd Hn).
Defined.

(** One round of signing in and logging out. *)
Lemma one_session w fu d :
  docs (cloud w) !! fu_uid fu = Some d ->
  App.run [App.AuthChanged (Some fu); App.Logout] w =
    mkWorld (mkBackend (docs (cloud w)) None
               (fu_uid fu :: listeners (cloud w)) (writes (cloud w)))
            (App.mkState None false
               (Some (App.mkToast App.logoutMessage "#ff4444"))
               (App.mkToast App.logoutMessage "#ff4444" :: App.shown (ui w))).
Proof.
  intros Hd. cbn [App.run fold_left]. rewrite step_authChanged.
  set (w1 := exec (App.authObserver (Some fu)) _).
  assert (E1 : w1 =
    mkWorld (addListener (fu_uid fu) (setSession (Some fu) (cloud w)))
            (App.mkState (Some d) false (App.toast (ui w)) (App.shown (ui w)))).
  { subst w1. unfold exec. rewrite authObserver_run.
    cbn [snd ui cloud onCloud setSession docs]. by rewrite Hd. }
  cbn [App.step]. unfold exec. rewrite handleLogout_spec, E1. reflexivity.
Qed.

(** X10. Every sign-in of a user with a profile attaches one more
    snapshot listener and no logout removes one: after [n] rounds of
    signing in and out, [n] further listeners are attached to that
    user's document. *)
Theorem listeners_pile_up (n : nat) w fu d :
  docs (cloud w) !! fu_uid fu = Some d ->
  listeners (cloud (App.run (sessions n fu) w))
    = replicate n (fu_uid fu) ++ listeners (cloud w).
Proof.
  revert w. induction n as [|n IH]; intros w Hd; [reflexivity|].
  unfold sessions. cbn [replicate concat]. fold (sessions n fu).
  unfold App.run. rewrite fold_left_app.
  fold (App.run [App.AuthChanged (Some fu); App.Logout] w).
  fold (App.run (sessions n fu)
          (App.run [App.AuthChanged (Some fu); App.Logout] w)).
  rewrite (one_session w fu d Hd).
  rewrite IH by exact Hd. cbn [cloud listeners].
  rewrite replicate_cons_app, <- app_assoc. reflexivity.
Qed.

Lemma listeners_pile_up_witness :
  docs (cloud signedOut) !! fu_uid amiraSession = Some amira
  /\ listeners (cloud (App.run (sessions 3 amiraSession) signedOut))
       = replicate 3 (fu_uid amiraSession) ++ listeners (cloud signedOut).
Proof.
  assert (Hd : docs (cloud signedOut) !! fu_uid amiraSession = Some amira)
    by reflexivity.
  split; [exact Hd|].
  exact (listeners_pile_up 3 signedOut amiraSession amira Hd).
Defined.

(** [handleLogout] when [signOut] rejects: the handler stops right after
    [setIsLoading(true)]. *)
Lemma handleLogoutOn_refused w e :
  handleLogoutOn (Some e) w =
    (Rejected e,
     mkWorld (cloud w)
       (App.mkState (App.user (ui w)) true (App.toast (ui w))
                    (App.shown (ui w)))).
Proof. reflexivity. Qed.

Lemma handleLogoutOn_resolved w :
  handleLogoutOn None w = App.handleLogout w.
Proof. reflexivity. Qed.

(** X11. Logging out never writes to the store and detaches no listener.
    When [signOut] resolves, the handler resolves with the session and
    the mirror empty, the logout toast up and [AuthGate] on screen.  When
    [signOut] rejects, the handler rejects with the same error, having
    only set [isLoading]: the session and the mirror are what they were,
    no toast is shown and the application is left on the splash. *)
Theorem logout_settles_or_stalls w (failure : option Err) :
  let w' := exec (handleLogoutOn failure) w in
  docs (cloud w') = docs (cloud w)
  /\ writes (cloud w') = writes (cloud w)
  /\ listeners (cloud w') = listeners (cloud w)
  /\ match failure with
     | None =>
         fst (handleLogoutOn failure w) = Ok tt
         /\ session (cloud w') = None
         /\ App.user (ui w') = None
         /\ screen (ui w') = Gate
         /\ App.toast (ui w') = Some (App.mkToast App.logoutMessage "#ff4444")
     | Some e =>
         fst (handleLogoutOn failure w) = Rejected e
         /\ session (cloud w') = session (cloud w)
         /\ App.user (ui w') = App.user (ui w)
         /\ screen (ui w') = Splash
         /\ App.shown (ui w') = App.shown (ui w)
     end.
Proof.
  intros w'. subst w'. unfold exec. destruct failure as [e|].
  - rewrite handleLogoutOn_refused. cbn. unfold screen. cbn. auto 10.
  - rewrite handleLogoutOn_resolved, handleLogout_spec.
    cbn. unfold screen. cbn. auto 10.
Qed.

End Sessions.

(* ------------------------------------------------------------------ *)
(** ** An invariant of the running application *)

Section Invariant.
Implicit Types (w : App.W) (u d : User) (k : string) (e : App.Event).

Lemma existsb_attached k (ls : list string) :
  existsb (fun l => String.eqb l k) ls = true -> k ∈ ls.
Proof.
  intros E. apply existsb_exists in E as (l & Hin & Heq).
  apply String.eqb_eq in Heq as ->. by apply list_elem_of_In.
Qed.

(** A delivered snapshot keeps the mirror subscribed. *)
Lemma deliver_subscribed w k :
  wellKeyed (docs (cloud w)) -> subscribed w -> subscribed (App.deliver k w).
Proof.
  intros Hk Hs. rewrite deliver_spec. intros u. cbn [ui cloud].
  destruct (existsb _ _) eqn:E; [|apply Hs].
  destruct (docs (cloud w) !! k) as [d|] eqn:Hd; cbn; [|apply Hs].
  intros [= <-]. rewrite (map_Forall_lookup_1 _ _ _ _ Hk Hd).
  by apply existsb_attached.
Qed.

Lemma step_invariant w e :
  wellKeyedEvent e ->
  wellKeyed (docs (cloud w)) -> subscribed w ->
  wellKeyed (docs (cloud (App.step w e))) /\ subscribed (App.step w e).
Proof.
  intros He Hk Hs. destruct e as [fu|j|j d|amount|amount| |].
  - rewrite step_authChanged. unfold exec. rewrite authObserver_run.
    cbn [snd ui cloud onCloud setSession docs].
    destruct fu as [fu|]; [|split; [exact Hk|by intros u]].
    destruct (docs (cloud w) !! fu_uid fu) as [d|] eqn:Hd;
      [|split; [exact Hk|by intros u]].
    split; [exact Hk|]. intros u. cbn. intros [= <-].
    rewrite (map_Forall_lookup_1 _ _ _ _ Hk Hd). apply list_elem_of_here.
  - cbn [App.step]. split; [by rewrite deliver_spec|].
    by apply deliver_subscribed.
  - cbn [App.step]. unfold App.remoteWrite.
    set (w1 := onCloud _ w).
    assert (Hk1 : wellKeyed (docs (cloud w1))).
    { subst w1. cbn. by apply map_Forall_insert_2. }
    split; [by rewrite deliver_spec|].
    apply deliver_subscribed; [exact Hk1|]. exact Hs.
  - cbn [App.step]. destruct (App.user (ui w)) as [u|] eqn:Hu.
    + destruct (addXP_run w u amount Hu) as (_ & Hdocs & Hl & Hu' & _).
      split.
      * rewrite Hdocs. destruct (docs (cloud w) !! uid u) as [d|] eqn:Hd;
          [|exact Hk].
        apply map_Forall_insert_2; [|exact Hk]. cbn.
        exact (map_Forall_lookup_1 _ _ _ _ Hk Hd).
      * intros u'. rewrite Hu', Hl. intros [= <-]. by apply Hs.
    + destruct (mutations_without_profile_aux w amount Hu) as (E & _).
      unfold exec. rewrite E. by split.
  - cbn [App.step]. destruct (App.user (ui w)) as [u|] eqn:Hu.
    + destruct (updatePoints_run w u amount Hu) as (_ & Hdocs & Hl & Hui).
      split.
      * rewrite Hdocs. destruct (docs (cloud w) !! uid u) as [d|] eqn:Hd;
          [|exact Hk].
        apply map_Forall_insert_2; [|exact Hk]. rewrite uid_applyPatch.
        exact (map_Forall_lookup_1 _ _ _ _ Hk Hd).
      * intros u'. rewrite Hui, Hl. apply Hs.
    + destruct (mutations_without_profile_aux w amount Hu) as (_ & E & _).
      unfold exec. rewrite E. by split.
  - cbn [App.step]. unfold exec. destruct (App.user (ui w)) as [u|] eqn:Hu.
    + destruct (docs (cloud w) !! uid u) as [d|] eqn:Hd.
      * rewrite (handleToggleGhost_present w u d Hu Hd). cbn. split.
        -- apply map_Forall_insert_2; [|exact Hk].
           exact (map_Forall_lookup_1 _ _ _ _ Hk Hd).
        -- intros u'. cbn. intros [= <-]. by apply Hs.
      * rewrite (handleToggleGhost_absent w u Hu Hd). cbn. by split.
    + destruct (mutations_without_profile_aux w 0 Hu) as (_ & _ & E).
      rewrite E. by split.
  - cbn [App.step]. unfold exec. rewrite handleLogout_spec. cbn.
    split; [exact Hk|]. by intros u.
Qed.

Lemma run_invariant (es : list App.Event) w :
  Forall wellKeyedEvent es ->
  wellKeyed (docs (cloud w)) -> subscribed w ->
  wellKeyed (docs (cloud (App.run es w))) /\ subscribed (App.run es w).
Proof.
  revert w. induction es as [|e es IH]; intros w Hes Hk Hs; [by split|].
  apply Forall_cons in Hes as [He Hes]. cbn [App.run fold_left].
  destruct (step_invariant w e He Hk Hs) as [Hk' Hs'].
  by apply IH.
Qed.

(** X12. Over a collection that stores every profile under its own uid,
    and with other clients writing profiles under their own uid only,
    any sequence of sign-ins, snapshots, mutations and logouts keeps the
    collection that way and never puts a profile in the mirror without a
    snapshot listener attached to that profile's document: every
    mutation issued from the mirror can be observed back. *)
Theorem mirror_is_always_subscribed (es : list App.Event)
    (m : gmap string User) :
  wellKeyed m ->
  Forall wellKeyedEvent es ->
  wellKeyed (docs (cloud (App.run es (App.mounted m))))
  /\ subscribed (App.run es (App.mounted m)).
Proof.
  intros Hm Hes. apply run_invariant; [exact Hes|exact Hm|].
  by intros u.
Qed.

Lemma mirror_is_always_subscribed_witness :
  wellKeyed {[ "u1" := amira ]}
  /\ Forall wellKeyedEvent
       [App.AuthChanged (Some amiraSession); App.AddXP 1200; App.Snapshot "u1";
        App.ToggleGhost; App.RemoteWrite "u1" amiraCredited]
  /\ wellKeyed (docs (cloud (App.run
       [App.AuthChanged (Some amiraSession); App.AddXP 1200; App.Snapshot "u1";
        App.ToggleGhost; App.RemoteWrite "u1" amiraCredited]
       (App.mounted {[ "u1" := amira ]}))))
  /\ subscribed (App.run
       [App.AuthChanged (Some amiraSession); App.AddXP 1200; App.Snapshot "u1";
        App.ToggleGhost; App.RemoteWrite "u1" amiraCredited]
       (App.mounted {[ "u1" := amira ]})).
Proof.
  assert (Hm : wellKeyed {[ "u1" := amira ]}).
  { apply map_Forall_singleton. reflexivity. }
  assert (Hes : Forall wellKeyedEvent
       [App.AuthChanged (Some amiraSession); App.AddXP 1200; App.Snapshot "u1";
        App.ToggleGhost; App.RemoteWrite "u1" amiraCredited]).
  { repeat constructor. }
  split; [exact Hm|]. split; [exact Hes|].
  exact (mirror_is_always_subscribed _ _ Hm Hes).
Defined.

End Invariant.

(* ------------------------------------------------------------------ *)
(** ** The sign-in handlers, beyond the create-if-absent step *)

Section GateMore.
Implicit Types (w : AuthGate.W) (fu : FirebaseUser) (now : Z)
  (tg : AuthGate.TgUser) (p d : User) (e : Err) (reply : AuthReply).

Lemma handleGoogleLogin_rejected w e now :
  AuthGate.handleGoogleLogin (Rejected e) now w =
    (Ok tt, mkWorld (cloud w) (settled (ui w) AuthGate.googleFailed)).
Proof. destruct w as [b s]. reflexivity. Qed.

Lemma onTelegramAuth_rejected w e now tg :
  AuthGate.onTelegramAuth (Rejected e) now tg w =
    (Ok tt, mkWorld (cloud w) (settled (ui w) AuthGate.telegramFailed)).
Proof. destruct w as [b s]. reflexivity. Qed.

Lemma handleSubmit_busy w reply now :
  AuthGate.loading (ui w) = true ->
  AuthGate.handleSubmit reply now w = (Ok tt, w).
Proof.
  intros Hl. unfold AuthGate.handleSubmit, bind at 1, gets.
  by rewrite Hl.
Qed.

Lemma handleSubmit_signin_ok w fu now :
  AuthGate.loading (ui w) = false ->
  AuthGate.isLogin (ui w) = true ->
  AuthGate.handleSubmit (Ok fu) now w =
    (Ok tt, mkWorld (setSession (Some fu) (cloud w)) (settled (ui w) "")).
Proof.
  intros Hl Hm. unfold AuthGate.handleSubmit, bind at 1, gets.
  rewrite Hl, Hm. reflexivity.
Qed.

Lemma handleSubmit_rejected w e now :
  AuthGate.loading (ui w) = false ->
  AuthGate.handleSubmit (Rejected e) now w =
    (Ok tt,
     mkWorld (cloud w)
       (settled (ui w)
          (if String.eqb (code e) "auth/user-not-found"
           then AuthGate.userNotFound else AuthGate.badCredentials))).
Proof.
  intros Hl. unfold AuthGate.handleSubmit, bind at 1, gets.
  rewrite Hl. destruct w as [b s]. cbn [ui].
  destruct (AuthGate.isLogin s); reflexivity.
Qed.

(** X13. When the sign-in call of the Google or of the Telegram handler
    is refused, the handler shows its one fixed message whatever the
    error, stops loading, and leaves the store, the session and the
    fields of the form untouched. *)
Theorem federated_failure w e now tg :
  (let w' := exec (AuthGate.handleGoogleLogin (Rejected e) now) w in
   AuthGate.error (ui w') = AuthGate.googleFailed
   /\ AuthGate.loading (ui w') = false
   /\ cloud w' = cloud w)
  /\
  (let w' := exec (AuthGate.onTelegramAuth (Rejected e) now tg) w in
   AuthGate.error (ui w') = AuthGate.telegramFailed
   /\ AuthGate.loading (ui w') = false
   /\ cloud w' = cloud w).
Proof.
  unfold exec. rewrite handleGoogleLogin_rejected, onTelegramAuth_rejected.
  cbn. auto.
Qed.

(** X14. On first contact the Google handler stores, under the uid of
    the account, a profile with the default field values and the time of
    the call; its name is the account's display name, or the stand-in
    name when the account has none or an empty one, and its email is the
    account's email, or the empty string when the account has none. *)
Theorem google_first_sign_in w fu now :
  docs (cloud w) !! fu_uid fu = None ->
  exists d,
    docs (cloud (exec (AuthGate.handleGoogleLogin (Ok fu) now) w)) !! fu_uid fu
      = Some d
    /\ uid d = fu_uid fu /\ joinedAt d = now /\ defaultShaped d
    /\ (forall n, displayName fu = Some n -> n <> "" -> name d = n)
    /\ (displayName fu = None \/ displayName fu = Some "" ->
          name d = AuthGate.anonymousSultan)
    /\ (forall a, fu_email fu = Some a -> email d = a)
    /\ (fu_email fu = None -> email d = "").
Proof.
  intros Hnone. exists (AuthGate.googleUser fu now).
  unfold exec. rewrite handleGoogleLogin_ok. cbn [snd cloud].
  split; [rewrite provisioned_lookup; by rewrite Hnone|].
  unfold AuthGate.googleUser, defaultShaped, AuthGate.orDefault.
  cbn [uid joinedAt points xp level role isGhostMode twoFactorEnabled name email].
  split; [done|]. split; [done|]. split; [done|].
  split; [|split; [|split]].
  - intros n -> Hn. cbn. by apply String.eqb_neq in Hn as ->.
  - by intros [-> | ->].
  - intros a ->. cbn. destruct (String.eqb a "") eqn:E; [|done].
    by apply String.eqb_eq in E as ->.
  - by intros ->.
Qed.

Lemma google_first_sign_in_witness :
  docs (cloud signUpForm) !! fu_uid anonymousSession = None
  /\ exists d,
       docs (cloud (exec (AuthGate.handleGoogleLogin (Ok anonymousSession) 7)
                         signUpForm)) !! fu_uid anonymousSession = Some d
       /\ uid d = fu_uid anonymousSession /\ joinedAt d = 7 /\ defaultShaped d
       /\ name d = AuthGate.anonymousSultan /\ email d = "".
Proof.
  assert (Hnone : docs (cloud signUpForm) !! fu_uid anonymousSession = None)
    by reflexivity.
  split; [exact Hnone|].
  destruct (google_first_sign_in signUpForm anonymousSession 7 Hnone)
    as (d & Hd & Hu & Hj & Hs & _ & Hn & _ & He).
  exists d. split; [exact Hd|]. split; [exact Hu|]. split; [exact Hj|].
  split; [exact Hs|]. split; [apply Hn; by left|by apply He].
Defined.

(** X15. While a submission is in flight ([loading] is set), submitting
    the form again does nothing at all: no sign-in call is made, nothing
    is written, and the form, its message included, is as it was. *)
Theorem submit_while_loading_is_ignored w reply now :
  AuthGate.loading (ui w) = true ->
  AuthGate.handleSubmit reply now w = (Ok tt, w).
Proof. apply handleSubmit_busy. Qed.

Lemma submit_while_loading_is_ignored_witness :
  AuthGate.loading (ui busyForm) = true
  /\ AuthGate.handleSubmit (Ok amiraSession) 3 busyForm = (Ok tt, busyForm).
Proof.
  split; [reflexivity|].
  exact (submit_while_loading_is_ignored busyForm (Ok amiraSession) 3 eq_refl).
Defined.

(** X16. In sign-in mode [handleSubmit] never touches the collection,
    whatever the provider answers; when the provider accepts, the
    session is open, the message is cleared and the form stops
    loading. *)
Theorem password_signin_never_writes w reply now :
  AuthGate.isLogin (ui w) = true ->
  let w' := exec (AuthGate.handleSubmit reply now) w in
  docs (cloud w') = docs (cloud w)
  /\ writes (cloud w') = writes (cloud w)
  /\ (AuthGate.loading (ui w) = false ->
      forall fu, reply = Ok fu ->
        session (cloud w') = Some fu
        /\ AuthGate.error (ui w') = ""
        /\ AuthGate.loading (ui w') = false).
Proof.
  intros Hm w'. subst w'. unfold exec.
  destruct (AuthGate.loading (ui w)) eqn:Hl.
  - rewrite (handleSubmit_busy w reply now Hl). cbn. split; [done|].
    split; [done|]. discriminate.
  - destruct reply as [fu|e].
    + rewrite (handleSubmit_signin_ok w fu now Hl Hm). cbn.
      split; [done|]. split; [done|]. by intros _ fu' [= <-].
    + rewrite (handleSubmit_rejected w e now Hl). cbn.
      split; [done|]. split; [done|]. intros _ fu' ?. discriminate.
Qed.

Lemma password_signin_never_writes_witness :
  AuthGate.isLogin (ui signInForm) = true
  /\ AuthGate.loading (ui signInForm) = false
  /\ let w' := exec (AuthGate.handleSubmit (Ok amiraSession) 3) signInForm in
     docs (cloud w') = docs (cloud signInForm)
     /\ writes (cloud w') = writes (cloud signInForm)
     /\ session (cloud w') = Some amiraSession
     /\ AuthGate.error (ui w') = ""
     /\ AuthGate.loading (ui w') = false.
Proof.
  split; [reflexivity|]. split; [reflexivity|].
  destruct (password_signin_never_writes signInForm (Ok amiraSession) 3 eq_refl)
    as (Hd & Hw & Hok).
  split; [exact Hd|]. split; [exact Hw|].
  exact (Hok eq_refl amiraSession eq_refl).
Defined.

(** X17. Sign-up does not look before it writes: the new profile is
    stored under the uid the provider returns whatever was stored there
    before.  It carries that uid, the email of the form, the time of the
    call and the default field values; its name is the name of the form,
    or the stand-in name when the form's name is empty. *)
Theorem signup_replaces_document w fu now :
  AuthGate.loading (ui w) = false ->
  AuthGate.isLogin (ui w) = false ->
  let w' := exec (AuthGate.handleSubmit (Ok fu) now) w in
  exists d,
    docs (cloud w') !! fu_uid fu = Some d
    /\ writes (cloud w') = WSet (fu_uid fu) d :: writes (cloud w)
    /\ uid d = fu_uid fu /\ joinedAt d = now /\ defaultShaped d
    /\ email d = AuthGate.email (ui w)
    /\ (AuthGate.name (ui w) <> "" -> name d = AuthGate.name (ui w))
    /\ (AuthGate.name (ui w) = "" -> name d = AuthGate.newSultan).
Proof.
  intros Hl Hm w'. subst w'. exists (AuthGate.passwordUser fu (ui w) now).
  unfold exec. rewrite (handleSubmit_signup_ok w fu now Hl Hm).
  cbn [snd cloud docs writes]. rewrite lookup_insert_eq.
  unfold AuthGate.passwordUser, defaultShaped, AuthGate.orDefault,
    AuthGate.ifTruthy.
  cbn [uid joinedAt points xp level role isGhostMode twoFactorEnabled name email].
  do 6 (split; [done|]). split.
  - intros Hn. by apply String.eqb_neq in Hn as ->.
  - by intros ->.
Qed.

Lemma signup_replaces_document_witness :
  AuthGate.loading (ui signUpOverAmira) = false
  /\ AuthGate.isLogin (ui signUpOverAmira) = false
  /\ docs (cloud signUpOverAmira) !! "u1" = Some amiraCredited
  /\ docs (cloud (exec (AuthGate.handleSubmit (Ok amiraSession) 9)
                       signUpOverAmira)) !! "u1"
       = Some (mkUser "u1" AuthGate.newSultan "new@x.com" 1000 0 1 "member"
                      false false 9).
Proof.
  split; [reflexivity|]. split; [reflexivity|]. split; [reflexivity|].
  destruct (signup_replaces_document signUpOverAmira amiraSession 9
              eq_refl eq_refl)
    as (d & Hd & _ & Hu & Hj & (Hp & Hx & Hlv & Hr & Hg & Ht) & He & _ & Hn).
  transitivity (Some d); [exact Hd|]. f_equal. destruct d; cbn in *.
  rewrite Hu, Hj, Hp, Hx, Hlv, Hr, Hg, Ht, He, (Hn eq_refl). reflexivity.
Defined.

(** X18. A refused sign-up is reported by the same rule as a refused
    sign-in: the generic credentials message for every error code (an
    address already in use, a weak password) except
    [auth/user-not-found]; nothing is written and no session is
    opened. *)
Theorem signup_failure w e now :
  AuthGate.loading (ui w) = false ->
  AuthGate.isLogin (ui w) = false ->
  let w' := exec (AuthGate.handleSubmit (Rejected e) now) w in
  (code e <> "auth/user-not-found" ->
     AuthGate.error (ui w') = AuthGate.badCredentials)
  /\ (code e = "auth/user-not-found" ->
        AuthGate.error (ui w') = AuthGate.userNotFound)
  /\ AuthGate.loading (ui w') = false
  /\ cloud w' = cloud w.
Proof.
  intros Hl _ w'. subst w'. unfold exec.
  rewrite (handleSubmit_rejected w e now Hl). cbn.
  split; [|split; [|split; reflexivity]].
  - intros Hne. by apply String.eqb_neq in Hne as ->.
  - intros Heq. by apply String.eqb_eq in Heq as ->.
Qed.

Lemma signup_failure_witness :
  AuthGate.loading (ui signUpForm) = false
  /\ AuthGate.isLogin (ui signUpForm) = false
  /\ let w' := exec (AuthGate.handleSubmit
                       (Rejected (mkErr "auth/email-already-in-use")) 3)
                    signUpForm in
     AuthGate.error (ui w') = AuthGate.badCredentials
     /\ AuthGate.loading (ui w') = false
     /\ cloud w' = cloud signUpForm.
Proof.
  split; [reflexivity|]. split; [reflexivity|].
  destruct (signup_failure signUpForm (mkErr "auth/email-already-in-use") 3
              eq_refl eq_refl) as (Hother & _ & Hld & Hc).
  split; [|split; assumption].
  apply Hother. discriminate.
Defined.

End GateMore.

(* ------------------------------------------------------------------ *)
(** ** What the three handlers have in common *)

Section GateShared.
Implicit Types (w : AuthGate.W) (fu : FirebaseUser) (now : Z)
  (tg : AuthGate.TgUser) (p d : User) (e : Err) (reply : AuthReply).

(** The collection after a handler is the one before, or that with one
    document set. *)
Lemma handleGoogleLogin_docs w reply now :
  docs (cloud (exec (AuthGate.handleGoogleLogin reply now) w)) = docs (cloud w)
  \/ exists fu,
       docs (cloud (exec (AuthGate.handleGoogleLogin reply now) w))
         = <[fu_uid fu := AuthGate.googleUser fu now]> (docs (cloud w)).
Proof.
  unfold exec. destruct reply as [fu|e].
  - rewrite handleGoogleLogin_ok. cbn [snd cloud]. unfold provisioned.
    destruct (docs (cloud w) !! fu_uid fu); [by left|right; by exists fu].
  - rewrite handleGoogleLogin_rejected. by left.
Qed.

Lemma onTelegramAuth_docs w reply now tg :
  docs (cloud (exec (AuthGate.onTelegramAuth reply now tg) w)) = docs (cloud w)
  \/ exists fu,
       docs (cloud (exec (AuthGate.onTelegramAuth reply now tg) w))
         = <[fu_uid fu := AuthGate.telegramUser fu tg now]> (docs (cloud w)).
Proof.
  unfold exec. destruct reply as [fu|e].
  - rewrite onTelegramAuth_ok. cbn [snd cloud]. unfold provisioned.
    destruct (docs (cloud w) !! fu_uid fu); [by left|right; by exists fu].
  - rewrite onTelegramAuth_rejected. by left.
Qed.

Lemma handleSubmit_docs w reply now :
  docs (cloud (exec (AuthGate.handleSubmit reply now) w)) = docs (cloud w)
  \/ exists fu,
       docs (cloud (exec (AuthGate.handleSubmit reply now) w))
         = <[fu_uid fu := AuthGate.passwordUser fu (ui w) now]> (docs (cloud w)).
Proof.
  unfold exec. destruct (AuthGate.loading (ui w)) eqn:Hl.
  - rewrite (handleSubmit_busy w reply now Hl). by left.
  - destruct reply as [fu|e].
    + destruct (AuthGate.isLogin (ui w)) eqn:Hm.
      * rewrite (handleSubmit_signin_ok w fu now Hl Hm). by left.
      * rewrite (handleSubmit_signup_ok w fu now Hl Hm). right. by exists fu.
    + rewrite (handleSubmit_rejected w e now Hl). by left.
Qed.

(** X19. Whatever the provider answers, a sign-in handler either leaves
    the collection exactly as it was or sets exactly one document, all
    others staying as they were; the document it sets carries the uid it
    is stored under, the time of the call and the default field values
    (points 1000, xp 0, level 1, role member, both flags off).  Hence a
    collection that stores every profile under its own uid still does so
    afterwards. *)
Theorem handlers_only_store_default_profiles w reply now tg (w' : AuthGate.W) :
  w' = exec (AuthGate.handleGoogleLogin reply now) w
  \/ w' = exec (AuthGate.onTelegramAuth reply now tg) w
  \/ w' = exec (AuthGate.handleSubmit reply now) w ->
  (docs (cloud w') = docs (cloud w)
   \/ exists k d,
        docs (cloud w') = <[k := d]> (docs (cloud w))
        /\ uid d = k /\ joinedAt d = now /\ defaultShaped d)
  /\ (wellKeyed (docs (cloud w)) -> wellKeyed (docs (cloud w'))).
Proof.
  intros H.
  assert (Hdocs : docs (cloud w') = docs (cloud w)
                  \/ exists k d,
                       docs (cloud w') = <[k := d]> (docs (cloud w))
                       /\ uid d = k /\ joinedAt d = now /\ defaultShaped d).
  { destruct H as [-> | [-> | ->]].
    - destruct (handleGoogleLogin_docs w reply now) as [E|[fu E]]; [by left|].
      right. eexists _, _. split; [exact E|]. by repeat split.
    - destruct (onTelegramAuth_docs w reply now tg) as [E|[fu E]]; [by left|].
      right. eexists _, _. split; [exact E|]. by repeat split.
    - destruct (handleSubmit_docs w reply now) as [E|[fu E]]; [by left|].
      right. eexists _, _. split; [exact E|]. by repeat split. }
  split; [exact Hdocs|]. intros Hk.
  destruct Hdocs as [-> | (k & d & -> & Hu & _)]; [exact Hk|].
  by apply map_Forall_insert_2.
Qed.

Lemma handlers_only_store_default_profiles_witness :
  let w' := exec (AuthGate.handleSubmit (Ok amiraSession) 9) signUpOverAmira in
  (w' = exec (AuthGate.handleGoogleLogin (Ok amiraSession) 9) signUpOverAmira
   \/ w' = exec (AuthGate.onTelegramAuth (Ok amiraSession) 9 omar) signUpOverAmira
   \/ w' = exec (AuthGate.handleSubmit (Ok amiraSession) 9) signUpOverAmira)
  /\ (docs (cloud w') = docs (cloud signUpOverAmira)
      \/ exists k d,
           docs (cloud w') = <[k := d]> (docs (cloud signUpOverAmira))
           /\ uid d = k /\ joinedAt d = 9 /\ defaultShaped d)
  /\ (wellKeyed (docs (cloud signUpOverAmira)) -> wellKeyed (docs (cloud w'))).
Proof.
  intros w'.
  assert (H : w' = exec (AuthGate.handleGoogleLogin (Ok amiraSession) 9)
                        signUpOverAmira
              \/ w' = exec (AuthGate.onTelegramAuth (Ok amiraSession) 9 omar)
                           signUpOverAmira
              \/ w' = exec (AuthGate.handleSubmit (Ok amiraSession) 9)
                           signUpOverAmira)
    by (right; right; reflexivity).
  split; [exact H|].
  exact (handlers_only_store_default_profiles signUpOverAmira
           (Ok amiraSession) 9 omar w' H).
Defined.

(** X20. No handler lets an error escape: for every answer of the
    provider each of the three resolves.  The Google and the Telegram
    handler always end with [loading] off; [handleSubmit] ends with
    [loading] as it found it (off after a run, still on after an ignored
    call).  The email, password, name and mode of the form are never
    changed. *)
Theorem handlers_always_settle w reply now tg :
  let formOf (s : AuthGate.State) :=
    (AuthGate.isLogin s, AuthGate.email s, AuthGate.password s, AuthGate.name s) in
  (fst (AuthGate.handleGoogleLogin reply now w) = Ok tt
   /\ AuthGate.loading (ui (exec (AuthGate.handleGoogleLogin reply now) w)) = false
   /\ formOf (ui (exec (AuthGate.handleGoogleLogin reply now) w)) = formOf (ui w))
  /\
  (fst (AuthGate.onTelegramAuth reply now tg w) = Ok tt
   /\ AuthGate.loading (ui (exec (AuthGate.onTelegramAuth reply now tg) w)) = false
   /\ formOf (ui (exec (AuthGate.onTelegramAuth reply now tg) w)) = formOf (ui w))
  /\
  (fst (AuthGate.handleSubmit reply now w) = Ok tt
   /\ AuthGate.loading (ui (exec (AuthGate.handleSubmit reply now) w))
        = AuthGate.loading (ui w)
   /\ formOf (ui (exec (AuthGate.handleSubmit reply now) w)) = formOf (ui w)).
Proof.
  intros formOf. subst formOf. unfold exec. cbv beta. split; [|split].
  - destruct reply as [fu|e].
    + rewrite handleGoogleLogin_ok. cbn. auto.
    + rewrite handleGoogleLogin_rejected. cbn. auto.
  - destruct reply as [fu|e].
    + rewrite onTelegramAuth_ok. cbn. auto.
    + rewrite onTelegramAuth_rejected. cbn. auto.
  - destruct (AuthGate.loading (ui w)) eqn:Hl.
    + rewrite (handleSubmit_busy w reply now Hl). cbn. by rewrite Hl.
    + destruct reply as [fu|e].
      * destruct (AuthGate.isLogin (ui w)) eqn:Hm.
        -- rewrite (handleSubmit_signin_ok w fu now Hl Hm). cbn.
           rewrite Hm. auto.
        -- rewrite (handleSubmit_signup_ok w fu now Hl Hm). cbn.
           rewrite Hm. auto.
      * rewrite (handleSubmit_rejected w e now Hl). cbn. auto.
Qed.

Lemma orDefault_not_empty (o : option string) (dflt : string) :
  dflt <> "" -> AuthGate.orDefault o dflt <> "".
Proof.
  intros Hd. unfold AuthGate.orDefault, AuthGate.ifTruthy.
  destruct o as [s|]; [|exact Hd].
  destruct (String.eqb s "") eqn:E; [exact Hd|].
  by apply String.eqb_neq in E.
Qed.

Lemma append_not_empty (a : Ascii.ascii) (s t : string) : String a s +:+ t <> "".
Proof. change (String a (s +:+ t) <> ""). discriminate. Qed.

(** X21. A profile created by the Google handler or by sign-up never has
    an empty name, and a profile created by the Telegram handler never
    has an empty email, whatever the account, the form or the payload
    hold. *)
Theorem created_profiles_are_labelled fu now tg (s : AuthGate.State) :
  name (AuthGate.googleUser fu now) <> ""
  /\ name (AuthGate.passwordUser fu s now) <> ""
  /\ email (AuthGate.telegramUser fu tg now) <> "".
Proof.
  split; [|split].
  - apply orDefault_not_empty. discriminate.
  - apply orDefault_not_empty. discriminate.
  - cbn [AuthGate.telegramUser email]. unfold AuthGate.ifTruthy.
    destruct (AuthGate.username tg) as [h|]; [|apply append_not_empty].
    destruct (String.eqb h ""); apply append_not_empty.
Qed.

End GateShared.

(* ------------------------------------------------------------------ *)
(** ** Ghost mode before the listener has run *)

Section GhostStale.
Implicit Types (w : App.W) (u d : User).

(** X22. Two [handleToggleGhost] calls made before the listener has run
    do not cancel: both read the same mirror, so both write the negation
    of the same flag and both show the same toast. *)
Theorem toggleGhost_stale_mirror w u d :
  App.user (ui w) = Some u ->
  docs (cloud w) !! uid u = Some d ->
  let w2 := exec App.handleToggleGhost (exec App.handleToggleGhost w) in
  isGhostMode <$> docs (cloud w2) !! uid u = Some (negb (isGhostMode u))
  /\ App.shown (ui w2) =
       ghostToast (isGhostMode u) :: ghostToast (isGhostMode u)
         :: App.shown (ui w).
Proof.
  intros Hu Hd w2. subst w2.
  set (w1 := exec App.handleToggleGhost w).
  assert (Hu1 : App.user (ui w1) = Some u)
    by (subst w1; unfold exec;
        rewrite (handleToggleGhost_present w u d Hu Hd); reflexivity).
  assert (Hs1 : App.shown (ui w1) = ghostToast (isGhostMode u) :: App.shown (ui w))
    by (subst w1; unfold exec;
        rewrite (handleToggleGhost_present w u d Hu Hd); reflexivity).
  assert (Hd1 : docs (cloud w1) !! uid u
                = Some (applyPatch [FIsGhostMode (negb (isGhostMode u))] d)).
  { subst w1. unfold exec. rewrite (handleToggleGhost_present w u d Hu Hd).
    cbn. apply lookup_insert_eq. }
  unfold exec.
  rewrite (handleToggleGhost_present w1 u _ Hu1 Hd1).
  cbn [snd cloud ui docs App.shown]. rewrite lookup_insert_eq, Hs1.
  split; reflexivity.
Qed.

Lemma toggleGhost_stale_mirror_witness :
  App.user (ui signedIn) = Some amira
  /\ docs (cloud signedIn) !! uid amira = Some amira
  /\ let w2 := exec App.handleToggleGhost (exec App.handleToggleGhost signedIn) in
     isGhostMode <$> docs (cloud w2) !! uid amira
       = Some (negb (isGhostMode amira))
     /\ App.shown (ui w2) =
          ghostToast (isGhostMode amira) :: ghostToast (isGhostMode amira)
            :: App.shown (ui signedIn).
Proof.
  assert (Hu : App.user (ui signedIn) = Some amira) by reflexivity.
  assert (Hd : docs (cloud signedIn) !! uid amira = Some amira) by reflexivity.
  split; [exact Hu|]. split; [exact Hd|].
  exact (toggleGhost_stale_mirror signedIn amira amira Hu Hd).
Defined.

End GhostStale.
